(** * ndcube.mixins.plotting: the plot dispatcher of [NDCubePlotMixin]

    A shallow embedding of [src/ndcube/mixins/plotting.py].  The methods of
    the mixin read the cube ([self]) and call into matplotlib / sunpy; they
    are modelled as computations in a small state-and-exception monad whose
    state holds the cube and the log of the calls made to the plotting
    collaborators.  Lists that the Python code indexes or updates in place
    use stdpp's lookup and insert, with Python's index normalisation and
    [IndexError] written out. *)

From Stdlib Require Import ZArith Lia.
From stdpp Require Import base list strings.

Local Open Scope string_scope.
Local Open Scope list_scope.

(** ** Python sequence indexing *)

(** [l[i]] for a Python list or tuple of length [len]: indices
    [0 .. len-1] and [-len .. -1] are valid, anything else is an
    [IndexError] (here [None]). *)
Definition py_norm (len : nat) (i : Z) : option nat :=
  if decide (0 <= i < Z.of_nat len)%Z then Some (Z.to_nat i)
  else if decide (- Z.of_nat len <= i < 0)%Z then Some (Z.to_nat (Z.of_nat len + i))
  else None.

Definition py_getitem {A} (l : list A) (i : Z) : option A :=
  match py_norm (length l) i with
  | Some n => l !! n
  | None => None
  end.

Definition py_setitem {A} (l : list A) (i : Z) (v : A) : option (list A) :=
  match py_norm (length l) i with
  | Some n => Some (<[n:=v]> l)
  | None => None
  end.

(** The [image_axes] argument of [plot]: omitted ([None]), a bare axis
    index, or a list of axis indices. *)
Inductive image_axes_arg : Type :=
| ia_None
| ia_int (i : Z)
| ia_list (l : list Z).

(** Python truth value of the argument, as used by [if not image_axes]. *)
Definition truthy (a : image_axes_arg) : bool :=
  match a with
  | ia_None => false
  | ia_int i => negb (i =? 0)%Z
  | ia_list l => negb (length l =? 0)%nat
  end.

(** An entry of the [slices] list handed to [gca_wcs]: an image-axis role
    (['x'] or ['y']) or a fixed pixel index. *)
Inductive slice_item : Type :=
| SRole (r : string)
| SIndex (n : Z).

(** ** The collaborators (numpy, astropy, matplotlib, sunpy)

    Their data is opaque to the mixin, which only passes it along. *)
Class Types : Type := {
  scalar : Type;              (* array element *)
  Unit : Type;                (* astropy.units.Unit *)
  unit_str : Unit -> string;  (* str(unit) *)
  unit_truthy : Unit -> bool; (* bool(unit): a unit may be given as a string,
                                 and the empty string is falsy *)
  WCS : Type;                 (* astropy.wcs.WCS *)
  naxis : WCS -> Z;           (* wcs.naxis *)
  user_axes : Type;           (* a WCSAxes supplied by the caller *)
  kwargs : Type;              (* pass-through keyword arguments *)
  ranges : Type;              (* the caller's axis_ranges *)
  ext_err : Type              (* exceptions raised inside a collaborator *)
}.

Section Data.

Context {T : Types}.

(** numpy array: its shape and its elements in row-major order. *)
Record ndarray : Type := mk_ndarray { shape : list nat; flat : list scalar }.

Definition ndim (a : ndarray) : nat := length (shape a).

(** astropy Quantity: an array with a unit. *)
Record Quantity : Type := mk_Quantity { value : ndarray; q_unit : Unit }.

(** The cube as this mixin sees it.  [cube_unit] is [self.unit]. *)
Record NDCube : Type := mk_NDCube {
  data : ndarray;
  cube_unit : option Unit;
  wcs : WCS;
  missing_axis : list bool;
  world_axis_physical_types : list string
}.

(** *** Exceptions *)

Inductive exn : Type :=
| TypeError_unit_is_None        (* TypeError("NDCube.unit is None. ...") *)
| ValueError_dims_mismatch      (* ValueError("Dimensions of WCS and data don't match") *)
| IndexError                    (* sequence index out of range *)
| TypeError_not_subscriptable   (* 'int' object is not subscriptable *)
| UnboundLocalError (var : string)
| AttributeError_Line2D (property : string)
    (* raised by matplotlib for a keyword that is no Line2D property *)
| CollaboratorError (e : ext_err).

(** *** What the plotting collaborators are handed *)

Inductive Axes : Type :=
| SuppliedAxes (a : user_axes)
| WCSAxes (w : WCS) (slices : list slice_item).   (* from gca_wcs *)

(** [ydata] of the 1D plot: [self.data] itself or a converted Quantity. *)
Inductive ydata_t : Type :=
| RawData (d : ndarray)
| Converted (q : Quantity).

(** The handle a rendering call returns records the call. *)
Inductive RenderedPlot : Type :=
| AxesImage (ax : Axes) (d : ndarray) (kw : kwargs)
| Line2D (x : Quantity) (y : ydata_t) (xlabel ylabel : string) (kw : kwargs)
| LineAnimator (d : ndarray) (plot_axis_index : Z)
    (axis_ranges : list (option ndarray)) (xlabel ylabel : string) (kw : kwargs)
| ImageAnimatorWCS (d : ndarray) (w : WCS) (image_axes : list Z)
    (unit_x_axis unit_y_axis : option Unit) (axis_ranges : option ranges)
    (kw : kwargs).

Inductive ext_call : Type :=
| GcaWcs (w : WCS) (slices : list slice_item)
| Render (p : RenderedPlot).

(** *** The monad: the cube, the calls made so far, and exceptions *)

Record world : Type := mk_world { w_self : NDCube; w_calls : list ext_call }.

Definition M (A : Type) : Type := world -> (exn + A) * world.

Definition ret {A} (a : A) : M A := fun w => (inr a, w).

Definition raise {A} (e : exn) : M A := fun w => (inl e, w).

Definition bind {A B} (m : M A) (f : A -> M B) : M B :=
  fun w => match m w with
           | (inl e, w') => (inl e, w')
           | (inr a, w') => f a w'
           end.

Definition self : M NDCube := fun w => (inr (w_self w), w).

Definition call (c : ext_call) : M () :=
  fun w => (inr tt, mk_world (w_self w) (w_calls w ++ [c])).

(** A sequence operation that raises [IndexError] when it has no result. *)
Definition index_or_raise {A} (o : option A) : M A :=
  match o with
  | Some a => ret a
  | None => raise IndexError
  end.

(** A call into a collaborator that may raise. *)
Definition collab {A} (r : ext_err + A) : M A :=
  match r with
  | inl e => raise (CollaboratorError e)
  | inr a => ret a
  end.

End Data.

(** The coordinate lookups of the cube and astropy's unit conversion.
    They are defined outside this module and are taken as parameters; each
    either returns or raises. *)
Class Lookups (T : Types) : Type := {
  (** [Quantity.to(unit)]; may raise (incompatible units). *)
  to : Quantity -> Unit -> ext_err + Quantity;
  (** [self.pixel_to_world(Quantity(pixels, unit=pix))]: one Quantity per
      world axis. *)
  pixel_to_world : NDCube -> list nat -> ext_err + list Quantity;
  (** [self.axis_world_coords(axis)]. *)
  axis_world_coords : NDCube -> Z -> ext_err + Quantity
}.

Section Plotting.

Context {T : Types} {L : Lookups T}.

Notation "'let!' x ':=' m 'in' k" := (bind m (fun x => k))
  (at level 10, x name, m at level 100, k at level 200).
Notation "'let!' ' p ':=' m 'in' k" := (bind m (fun p => k))
  (at level 10, p pattern, m at level 100, k at level 200).

(** A rendering call that takes the arguments it is given ([imshow] and
    the two animators): logged, and its handle returned. *)
Definition render (p : RenderedPlot) : M RenderedPlot :=
  let! _ := call (Render p) in ret p.

(** [plt.plot(xdata, ydata, xlabel=..., ylabel=..., **kwargs)]: the call
    is made, and matplotlib, which takes the keywords of [plot] for
    properties of the line, raises [AttributeError] on [xlabel]. *)
Definition plt_plot (p : RenderedPlot) : M RenderedPlot :=
  let! _ := call (Render p) in raise (AttributeError_Line2D "xlabel").

(** [wcsaxes_compat.gca_wcs(wcs, slices=...)]. *)
Definition gca_wcs (w : WCS) (slices : list slice_item) : M Axes :=
  let! _ := call (GcaWcs w slices) in ret (WCSAxes w slices).

(** [str(unit)] inside [format]; an absent unit prints as [None]. *)
Definition str_opt (u : option Unit) : string :=
  match u with
  | Some u => unit_str u
  | None => "None"
  end.

(** ["{0} [{1}]".format(name, unit)] *)
Definition xlabel_of (name : string) (u : option Unit) : string :=
  name +:+ " [" +:+ str_opt u +:+ "]".

(** ["Data [{0}]".format(unit)] *)
Definition ylabel_of (u : option Unit) : string :=
  "Data [" +:+ str_opt u +:+ "]".

(** Lines 195-196: [xdata.to(unit_x_axis)] when [unit_x_axis] is truthy. *)
Definition convert_x_if_truthy (xdata : Quantity) (unit_x_axis : option Unit)
    : M Quantity :=
  match unit_x_axis with
  | Some u => if unit_truthy u then collab (to xdata u) else ret xdata
  | None => ret xdata
  end.

(** Lines 174-175: [xdata.to(unit_x_axis)] when [unit_x_axis is not None]. *)
Definition convert_x (xdata : Quantity) (unit_x_axis : option Unit) : M Quantity :=
  match unit_x_axis with
  | Some u => collab (to xdata u)
  | None => ret xdata
  end.

(** *** [_plot_3D_cube] (lines 84-121) *)

Definition _plot_3D_cube (image_axes : option (list Z))
    (unit_x_axis unit_y_axis : option Unit) (axis_ranges : option ranges)
    (kw : kwargs) : M RenderedPlot :=
  let image_axes :=
    match image_axes with
    | None | Some [] => [-1; -2]%Z
    | Some l => l
    end in
  let! c := self in
  render (ImageAnimatorWCS (data c) (wcs c) image_axes unit_x_axis unit_y_axis
            axis_ranges kw).

(** *** [_plot_2D_cube] (lines 123-156) *)

(** The [for] loop of lines 146-151 over [missing_axis], with its two
    locals [slice_list] and [index]. *)
Fixpoint slice_loop (image_axes : list string) (missing : list bool)
    (slice_list : list slice_item) (index : nat)
    : option (list slice_item * nat) :=
  match missing with
  | [] => Some (slice_list, index)
  | bool_ :: rest =>
      if negb bool_ then
        match image_axes !! index with
        | Some r => slice_loop image_axes rest (slice_list ++ [SRole r]) (S index)
        | None => None          (* image_axes[index]: IndexError *)
        end
      else slice_loop image_axes rest (slice_list ++ [SIndex 1]) index
  end.

Definition _plot_2D_cube (axes : option user_axes)
    (image_axes : option (list string)) (kw : kwargs) : M RenderedPlot :=
  let image_axes :=
    match image_axes with
    | None | Some [] => ["x"; "y"]
    | Some l => l
    end in
  let! c := self in
  let! axes :=
    match axes with
    | None =>
        (* [slice_list] is bound only inside the [naxis is not 2] branch *)
        let! slice_list :=
          if negb (naxis (wcs c) =? 2)%Z then
            let! '(slice_list, index) :=
              index_or_raise (slice_loop image_axes (missing_axis c) [] 0) in
            if negb (index =? 2)%nat then raise ValueError_dims_mismatch
            else ret (Some slice_list)
          else ret None in
        match slice_list with
        | Some slice_list => gca_wcs (wcs c) slice_list
        | None => raise (UnboundLocalError "slice_list")
        end
    | Some a => ret (SuppliedAxes a)
    end in
  render (AxesImage axes (data c) kw).

(** *** [_plot_1D_cube] (lines 158-188) *)

(** Lines 169-172; the list is built and never used. *)
Fixpoint index_not_one_from (i : nat) (missing : list bool) : list nat :=
  match missing with
  | [] => []
  | _bool :: rest =>
      if negb _bool then i :: index_not_one_from (S i) rest
      else index_not_one_from (S i) rest
  end.

Definition _plot_1D_cube (unit_x_axis unit_y_axis : option Unit) (kw : kwargs)
    : M RenderedPlot :=
  let! c := self in
  let index_not_one := index_not_one_from 0 (missing_axis c) in
  let! n := index_or_raise (shape (data c) !! 0) in
  let! world := collab (pixel_to_world c (seq 0 n)) in
  let! xdata := index_or_raise (world !! 0) in
  let! xdata := convert_x xdata unit_x_axis in
  let! '(ydata, unit_y_axis) :=
    match unit_y_axis with
    | None => ret (RawData (data c), cube_unit c)
    | Some uy =>
        match cube_unit c with
        | None => raise TypeError_unit_is_None
        | Some u =>
            let! q := collab (to (mk_Quantity (data c) u) uy) in
            ret (Converted q, Some uy)
        end
    end in
  let! name := index_or_raise (world_axis_physical_types c !! 0) in
  plt_plot (Line2D xdata ydata (xlabel_of name unit_x_axis) (ylabel_of unit_y_axis) kw).

(** *** [_animate_cube_1D] (lines 190-210) *)

Definition _animate_cube_1D (plot_axis_index : Z)
    (unit_x_axis unit_y_axis : option Unit) (kw : kwargs) : M RenderedPlot :=
  let! c := self in
  let! xdata := collab (axis_world_coords c plot_axis_index) in
  let! xdata := convert_x_if_truthy xdata unit_x_axis in
  let axis_ranges : list (option ndarray) := replicate (ndim (data c)) None in
  let! axis_ranges :=
    index_or_raise (py_setitem axis_ranges plot_axis_index (Some (value xdata))) in
  (* [data] is bound only inside the [if unit_y_axis] branch, which a
     falsy unit does not enter *)
  let! data_ :=
    match unit_y_axis with
    | Some uy =>
        if unit_truthy uy then
          match cube_unit c with
          | None => raise TypeError_unit_is_None
          | Some u =>
              let! q := collab (to (mk_Quantity (data c) u) uy) in
              ret (Some q)
          end
        else ret None
    | None => ret None
    end in
  match data_ with
  | None => raise (UnboundLocalError "data")
  | Some q =>
      let! name :=
        index_or_raise (py_getitem (world_axis_physical_types c) plot_axis_index) in
      render (LineAnimator (value q) plot_axis_index axis_ranges
                (xlabel_of name unit_x_axis) (ylabel_of unit_y_axis) kw)
  end.

(** *** [plot] (lines 16-82) *)

(** Lines 56-57. *)
Definition default_image_axes (image_axes : image_axes_arg) : image_axes_arg :=
  if negb (truthy image_axes) then ia_list [-1; -2]%Z else image_axes.

(** Lines 58-64, on the defaulted argument: [int(image_axes)] succeeds
    on a number and raises [TypeError] on a list, whose handler looks at
    the length. *)
Definition plot_axis_index_of (image_axes : image_axes_arg) : option Z :=
  match image_axes with
  | ia_int i => Some i
  | ia_list [i] => Some i
  | ia_list _ => None
  | ia_None => None
  end.

Definition plot (axes : option user_axes) (image_axes : image_axes_arg)
    (unit_x_axis unit_y_axis : option Unit) (axis_ranges : option ranges)
    (unit : option Unit) (kw : kwargs) : M RenderedPlot :=
  let image_axes := default_image_axes image_axes in
  let! c := self in
  match plot_axis_index_of image_axes, bool_decide (1 < ndim (data c)) with
  | Some plot_axis_index, true =>
      _animate_cube_1D plot_axis_index unit_x_axis unit_y_axis kw
  | _, _ =>
      let axis_data := ["x"; "x"] in
      (* image_axes[1] *)
      let! l :=
        match image_axes with
        | ia_list l => ret l
        | _ => raise TypeError_not_subscriptable
        end in
      let! i1 := index_or_raise (py_getitem l 1) in
      let! axis_data := index_or_raise (py_setitem axis_data i1 "y") in
      if bool_decide (3 <= ndim (data c)) then
        _plot_3D_cube (Some l) unit_x_axis unit_y_axis axis_ranges kw
      else if bool_decide (ndim (data c) = 2) then
        _plot_2D_cube axes (Some (reverse axis_data)) kw
      else if bool_decide (ndim (data c) = 1) then
        _plot_1D_cube unit_x_axis unit_y_axis kw
      else raise (UnboundLocalError "plot")
  end.

(** ** Specification-side vocabulary *)

(** Number of coordinate dimensions not flagged missing. *)
Fixpoint count_not_missing (missing : list bool) : nat :=
  match missing with
  | [] => 0
  | b :: rest => (if b then 0 else 1) + count_not_missing rest
  end.

(** The slice descriptor in the spec's words: dimension [i] is fixed to
    index 1 when flagged missing, and otherwise gets the next unused
    image-axis role, i.e. the role numbered by how many earlier
    dimensions are not missing. *)
Definition descriptor_entry (roles : list string) (missing : list bool) (i : nat)
    : option slice_item :=
  match missing !! i with
  | Some true => Some (SIndex 1)
  | Some false => SRole <$> roles !! count_not_missing (take i missing)
  | None => None
  end.

(** The image-axis roles [_plot_2D_cube] works with (lines 139-140). *)
Definition roles_of (image_axes : option (list string)) : list string :=
  match image_axes with
  | None | Some [] => ["x"; "y"]
  | Some l => l
  end.

(** [x'] is [x] after the optional conversion to [unit_x_axis]. *)
Definition converted (x : Quantity) (unit_x_axis : option Unit) (x' : Quantity) : Prop :=
  match unit_x_axis with
  | Some u => to x u = inr x'
  | None => x' = x
  end.

(** [x'] is [x] after the conversion the animated strategy makes, which
    needs a truthy [unit_x_axis]. *)
Definition converted_if_truthy (x : Quantity) (unit_x_axis : option Unit)
    (x' : Quantity) : Prop :=
  match unit_x_axis with
  | Some u => if unit_truthy u then to x u = inr x' else x' = x
  | None => x' = x
  end.

(** The world after one more collaborator call. *)
Definition logged (w : world) (cs : list ext_call) : world :=
  mk_world (w_self w) (w_calls w ++ cs).

End Plotting.

(** ** Outcomes of a call *)

Section Outcomes.

Context {T : Types}.

(** A computation that makes no call to a plotting collaborator. *)
Definition silent {A} (m : M A) : Prop :=
  forall w : world, exists r, m w = (r, w).

(** The collaborator calls behind a returned handle [p]: the rendering
    call that produced it, preceded by [gca_wcs] when the image is drawn on
    a surface derived from the coordinate system. *)
Definition calls_of_plot (p : RenderedPlot) (cs : list ext_call) : Prop :=
  cs = [Render p]
  \/ exists w sl d kw,
       p = AxesImage (WCSAxes w sl) d kw /\ cs = [GcaWcs w sl; Render p].

(** An exception with no plotting call made, or the plotting call and
    its outcome: a handle with exactly the calls behind it, or the
    [AttributeError] of [plt.plot] after that one call. *)
Definition all_or_nothing (m : M RenderedPlot) : Prop :=
  forall w : world,
    (exists e, m w = (inl e, w))
    \/ (exists p cs, m w = (inr p, logged w cs) /\ calls_of_plot p cs)
    \/ (exists x y xl yl kw,
          m w = (inl (AttributeError_Line2D "xlabel"),
                 logged w [Render (Line2D x y xl yl kw)])).

(** What kind of handle goes with which cube and which [image_axes]. *)
Definition handle_fits (c : NDCube) (image_axes : image_axes_arg)
    (p : RenderedPlot) : Prop :=
  match p with
  | LineAnimator _ i _ _ _ _ =>
      1 < ndim (data c)
      /\ plot_axis_index_of (default_image_axes image_axes) = Some i
  | ImageAnimatorWCS d w l _ _ _ _ =>
      3 <= ndim (data c)
      /\ default_image_axes image_axes = ia_list l
      /\ d = data c /\ w = wcs c
  | AxesImage _ d _ => ndim (data c) = 2 /\ d = data c
  | Line2D _ _ _ _ _ => ndim (data c) = 1
  end.

(** The roles [plot] hands to [_plot_2D_cube] (lines 70, 71 and 77) for a
    second image axis [b]: [axis_data] reversed. *)
Definition roles_for_second_axis (b : Z) : list string :=
  if decide (b = 0 \/ b = -2)%Z then ["x"; "y"] else ["y"; "x"].

End Outcomes.

(** ** A concrete instance

    Integer arrays, units named by strings, a WCS reduced to its number of
    axes, and lookups that return pixel indices as world coordinates. *)

Definition demo_types : Types := {|
  scalar := Z;
  Unit := string;
  unit_str := fun u => u;
  unit_truthy := fun u => negb (String.eqb u "");
  WCS := Z;
  naxis := fun w => w;
  user_axes := nat;
  kwargs := ();
  ranges := ();
  ext_err := string
|}.

Definition demo_arange (n : nat) : @ndarray demo_types :=
  @mk_ndarray demo_types [n] (Z.of_nat <$> seq 0 n).

Definition demo_lookups : Lookups demo_types := {|
  to := fun (q : @Quantity demo_types) (u : string) =>
    if String.eqb u "furlong" then inl "UnitConversionError"
    else inr (@mk_Quantity demo_types (value q) u);
  pixel_to_world := fun (c : @NDCube demo_types) (pix : list nat) =>
    inr [@mk_Quantity demo_types
           (@mk_ndarray demo_types [length pix] (Z.of_nat <$> pix)) "m"];
  axis_world_coords := fun (c : @NDCube demo_types) (i : Z) =>
    match py_getitem (shape (data c)) i with
    | Some n => inr (@mk_Quantity demo_types (demo_arange n) "m")
    | None => inl "IndexError in axis_world_coords"
    end
|}.

Definition demo_zeros (shp : list nat) : @ndarray demo_types :=
  @mk_ndarray demo_types shp (replicate (foldr Nat.mul 1 shp) 0%Z).

Definition demo_cube (shp : list nat) (u : option string) (wcs_naxis : Z)
    (missing : list bool) : @NDCube demo_types :=
  @mk_NDCube demo_types (demo_zeros shp) u wcs_naxis missing
    (replicate (Z.to_nat wcs_naxis) "em.wl").

Definition demo_world (c : @NDCube demo_types) : @world demo_types :=
  @mk_world demo_types c [].

(** [plot] with the demo collaborators and no options. *)
Definition demo_plot (c : @NDCube demo_types) (axes : option nat)
    (image_axes : image_axes_arg) (unit_x_axis unit_y_axis : option string) :=
  @plot demo_types demo_lookups axes image_axes unit_x_axis unit_y_axis None None tt
    (demo_world c).

(** Cubes used below. *)

(** 10 samples along one axis. *)
Definition demo_cube_1d : @NDCube demo_types :=
  demo_cube [10] (Some "ct") 1 [false].

Definition demo_cube_1d_no_unit : @NDCube demo_types :=
  demo_cube [10] None 1 [false].

(** A 5x5 image with a two-dimensional coordinate system. *)
Definition demo_cube_2d : @NDCube demo_types :=
  demo_cube [5; 5] (Some "ct") 2 [false; false].

(** A 5x5 image cut out of a three-dimensional coordinate system. *)
Definition demo_cube_2d_sliced : @NDCube demo_types :=
  demo_cube [5; 5] (Some "ct") 3 [false; true; false].

(** 5x5 data whose coordinate system keeps one, resp. three, dimensions. *)
Definition demo_cube_2d_one_kept : @NDCube demo_types :=
  demo_cube [5; 5] (Some "ct") 3 [false; true; true].

Definition demo_cube_2d_three_kept : @NDCube demo_types :=
  demo_cube [5; 5] (Some "ct") 3 [false; false; false].

(** 5x5 data, two coordinate dimensions of which one is flagged missing. *)
Definition demo_cube_2d_flagged : @NDCube demo_types :=
  demo_cube [5; 5] (Some "ct") 2 [false; true].

(** A zero-dimensional array. *)
Definition demo_cube_0d : @NDCube demo_types :=
  demo_cube [] (Some "ct") 0 [].

Definition demo_cube_3d : @NDCube demo_types :=
  demo_cube [2; 3; 4] (Some "ct") 3 [false; false; false].

Definition demo_cube_3d_no_unit : @NDCube demo_types :=
  demo_cube [2; 3; 4] None 3 [false; false; false].

(** Lookups detached from the array: no world coordinates for pixels,
    and the same coordinates for whatever axis is asked for. *)
Definition demo_lookups_detached : Lookups demo_types := {|
  to := @to demo_types demo_lookups;
  pixel_to_world := fun (c : @NDCube demo_types) (pix : list nat) =>
    inl "NoConvergence";
  axis_world_coords := fun (c : @NDCube demo_types) (i : Z) =>
    inr (@mk_Quantity demo_types (demo_arange 1) "m")
|}.

(** * Properties *)

Section Properties.

Context {T : Types} {L : Lookups T}.

(** ** Python indexing *)


Lemma py_norm_nonneg (len : nat) (i : Z) :
  (0 <= i < Z.of_nat len)%Z -> py_norm len i = Some (Z.to_nat i).
Proof.
  intros H. unfold py_norm. rewrite decide_True by done. done.
Qed.

Lemma py_norm_neg (len : nat) (i : Z) :
  (- Z.of_nat len <= i < 0)%Z ->
  py_norm len i = Some (Z.to_nat (Z.of_nat len + i)).
Proof.
  intros H. unfold py_norm.
  rewrite decide_False by lia. rewrite decide_True by done. done.
Qed.

Lemma py_norm_is_Some (len : nat) (i : Z) :
  is_Some (py_norm len i) <-> (- Z.of_nat len <= i < Z.of_nat len)%Z.
Proof.
  unfold py_norm. repeat case_decide; split; intros H'; try lia; eauto.
  destruct H' as [? [=]].
Qed.

(** ** Methods only read the cube and only append to the call log *)

(** On a given cube a computation has one outcome and one list of
    collaborator calls, whatever was logged before. *)
Definition parametric {A} (m : M A) : Prop :=
  forall c : NDCube, exists (r : exn + A) (cs : list ext_call),
    forall l, m (mk_world c l) = (r, mk_world c (l ++ cs)).

Lemma parametric_ret {A} (a : A) : parametric (ret a).
Proof. intros c. exists (inr a), []. intros l. unfold ret. by rewrite app_nil_r. Qed.

Lemma parametric_raise {A} (e : exn) : parametric (@raise _ A e).
Proof. intros c. exists (inl e), []. intros l. unfold raise. by rewrite app_nil_r. Qed.

Lemma parametric_self : parametric self.
Proof. intros c. exists (inr c), []. intros l. unfold self. by rewrite app_nil_r. Qed.

Lemma parametric_call (x : ext_call) : parametric (call x).
Proof. intros c. exists (inr tt), [x]. intros l. done. Qed.

Lemma parametric_bind {A B} (m : M A) (f : A -> M B) :
  parametric m -> (forall a, parametric (f a)) -> parametric (bind m f).
Proof.
  intros Hm Hf c. destruct (Hm c) as (r & cs & Hr).
  destruct r as [e | a].
  - exists (inl e), cs. intros l. unfold bind. by rewrite Hr.
  - destruct (Hf a c) as (r' & cs' & Hr').
    exists r', (cs ++ cs'). intros l. unfold bind.
    rewrite Hr, Hr'. by rewrite app_assoc.
Qed.

Lemma parametric_index_or_raise {A} (o : option A) : parametric (index_or_raise o).
Proof.
  destruct o; [apply parametric_ret | apply parametric_raise].
Qed.

Lemma parametric_collab {A} (r : ext_err + A) : parametric (collab r).
Proof.
  destruct r; [apply parametric_raise | apply parametric_ret].
Qed.

Lemma parametric_convert_x (x : Quantity) ux : parametric (convert_x x ux).
Proof. destruct ux; [apply parametric_collab | apply parametric_ret]. Qed.

Lemma parametric_convert_x_if_truthy (x : Quantity) ux :
  parametric (convert_x_if_truthy x ux).
Proof.
  destruct ux as [u |]; cbn; [destruct (unit_truthy u) |];
    auto using parametric_collab, parametric_ret.
Qed.

Ltac parametric_step :=
  first
    [ apply parametric_convert_x
    | apply parametric_convert_x_if_truthy
    | apply parametric_bind; [| intros ?]
    | apply parametric_ret
    | apply parametric_raise
    | apply parametric_self
    | apply parametric_call
    | apply parametric_index_or_raise
    | apply parametric_collab
    | match goal with
      | |- parametric (match ?x with _ => _ end) => destruct x
      end ].

Ltac parametric := repeat parametric_step.

Lemma parametric_plot_3D_cube ia ux uy ar kw :
  parametric (_plot_3D_cube ia ux uy ar kw).
Proof. unfold _plot_3D_cube, render. parametric. Qed.

Lemma parametric_plot_2D_cube ax ia kw : parametric (_plot_2D_cube ax ia kw).
Proof. unfold _plot_2D_cube, render, gca_wcs. parametric. Qed.

Lemma parametric_plot_1D_cube ux uy kw : parametric (_plot_1D_cube ux uy kw).
Proof. unfold _plot_1D_cube, plt_plot. parametric. Qed.

Lemma parametric_animate_cube_1D i ux uy kw :
  parametric (_animate_cube_1D i ux uy kw).
Proof. unfold _animate_cube_1D, render. parametric. Qed.

Lemma parametric_plot ax ia ux uy ar u kw : parametric (plot ax ia ux uy ar u kw).
Proof.
  unfold plot. parametric;
    auto using parametric_plot_3D_cube, parametric_plot_2D_cube,
      parametric_plot_1D_cube, parametric_animate_cube_1D.
Qed.

(** ** The slice loop of [_plot_2D_cube] *)

(** [descriptor_entry] for a loop entered with [index] roles already
    handed out. *)
Definition entry_from (roles : list string) (index : nat) (missing : list bool)
    (i : nat) : option slice_item :=
  match missing !! i with
  | Some true => Some (SIndex 1)
  | Some false => SRole <$> roles !! (index + count_not_missing (take i missing))
  | None => None
  end.

Lemma entry_from_0 roles missing i :
  entry_from roles 0 missing i = descriptor_entry roles missing i.
Proof. reflexivity. Qed.

Lemma slice_loop_ok roles missing : forall acc index,
  index + count_not_missing missing <= length roles ->
  exists sl,
    slice_loop roles missing acc index
      = Some (acc ++ sl, index + count_not_missing missing)
    /\ length sl = length missing
    /\ forall i, sl !! i = entry_from roles index missing i.
Proof.
  induction missing as [| b rest IH]; intros acc index Hle; cbn in *.
  - exists []. rewrite app_nil_r, Nat.add_0_r. repeat split.
  - destruct b; cbn in *.
    + destruct (IH (acc ++ [SIndex 1]) index Hle) as (sl & Hrun & Hlen & Hent).
      exists (SIndex 1 :: sl). rewrite Hrun, <- app_assoc. cbn.
      repeat split; [lia |].
      intros [| i]; [done |]. cbn. rewrite Hent. done.
    + destruct (lookup_lt_is_Some_2 roles index) as [r Hr]; [lia |].
      rewrite Hr.
      destruct (IH (acc ++ [SRole r]) (S index)) as (sl & Hrun & Hlen & Hent); [lia |].
      exists (SRole r :: sl). rewrite Hrun, <- app_assoc. cbn.
      repeat split; [f_equal; f_equal; lia | lia |].
      intros [| i].
      * unfold entry_from. cbn. rewrite Nat.add_0_r, Hr. done.
      * cbn. rewrite Hent. unfold entry_from. cbn.
        destruct (rest !! i) as [[] |]; try done.
        by rewrite Nat.add_succ_r.
Qed.

Lemma slice_loop_out_of_roles roles missing : forall acc index,
  index <= length roles ->
  length roles < index + count_not_missing missing ->
  slice_loop roles missing acc index = None.
Proof.
  induction missing as [| b rest IH]; intros acc index Hi Hlt; cbn in *.
  - lia.
  - destruct b; cbn in *.
    + by apply IH.
    + destruct (roles !! index) as [r |] eqn:Hr; [| done].
      apply lookup_lt_Some in Hr. apply IH; lia.
Qed.

Lemma roles_of_length_plot (l : list string) :
  length l = 2 -> roles_of (Some l) = l.
Proof. by destruct l. Qed.

(** ** Static 2D image strategy *)

(** C10: when the caller supplies the drawing surface, [_plot_2D_cube]
    performs no dimensionality check: whatever the coordinate system and
    its missing-axis flags are, it raises nothing and the only
    collaborator call is the image display on the supplied surface. *)
Theorem plot_2D_cube_supplied_axes_unchecked
    (a : user_axes) (ia : option (list string)) (kw : kwargs) (w : world) :
  _plot_2D_cube (Some a) ia kw w
  = (inr (AxesImage (SuppliedAxes a) (data (w_self w)) kw),
     logged w [Render (AxesImage (SuppliedAxes a) (data (w_self w)) kw)]).
Proof. reflexivity. Qed.

(** With no surface supplied and a coordinate system that is not
    two-dimensional, the outcome is decided by the slice loop. *)
Lemma plot_2D_cube_no_axes (ia : option (list string)) (kw : kwargs) (w : world) :
  naxis (wcs (w_self w)) <> 2%Z ->
  _plot_2D_cube None ia kw w
  = match slice_loop (roles_of ia) (missing_axis (w_self w)) [] 0 with
    | None => (inl IndexError, w)
    | Some (sl, index) =>
        if (index =? 2)%nat then
          (inr (AxesImage (WCSAxes (wcs (w_self w)) sl) (data (w_self w)) kw),
           logged w [GcaWcs (wcs (w_self w)) sl;
                     Render (AxesImage (WCSAxes (wcs (w_self w)) sl)
                               (data (w_self w)) kw)])
        else (inl ValueError_dims_mismatch, w)
    end.
Proof.
  intros Hn. apply Z.eqb_neq in Hn.
  unfold _plot_2D_cube, bind, self. cbn.
  change (match ia with
          | Some (_ :: _ as l) => l
          | _ => ["x"; "y"]
          end) with (roles_of ia).
  rewrite Hn. cbn.
  destruct (slice_loop _ _ _ _) as [[sl index] |]; cbn; [| done].
  destruct (index =? 2)%nat; cbn; [| done].
  unfold logged. cbn. by rewrite <- app_assoc.
Qed.

(** When the coordinate system is two-dimensional the local
    [slice_list] is never bound. *)
Lemma plot_2D_cube_naxis_2 (ia : option (list string)) (kw : kwargs) (w : world) :
  naxis (wcs (w_self w)) = 2%Z ->
  _plot_2D_cube None ia kw w = (inl (UnboundLocalError "slice_list"), w).
Proof.
  intros Hn. unfold _plot_2D_cube, bind, self. cbn. by rewrite Hn.
Qed.

(** Two non-missing dimensions, a coordinate system that is not
    two-dimensional: the surface comes from [gca_wcs] and the image is
    drawn on it. *)
Lemma plot_2D_cube_renders
    (ia : option (list string)) (kw : kwargs) (w : world) :
  naxis (wcs (w_self w)) <> 2%Z ->
  count_not_missing (missing_axis (w_self w)) = 2 ->
  2 <= length (roles_of ia) ->
  exists sl : list slice_item,
    _plot_2D_cube None ia kw w
    = (inr (AxesImage (WCSAxes (wcs (w_self w)) sl) (data (w_self w)) kw),
       logged w [GcaWcs (wcs (w_self w)) sl;
                 Render (AxesImage (WCSAxes (wcs (w_self w)) sl)
                           (data (w_self w)) kw)])
    /\ length sl = length (missing_axis (w_self w))
    /\ forall i,
         sl !! i = descriptor_entry (roles_of ia) (missing_axis (w_self w)) i.
Proof.
  intros Hn Hc Hr.
  destruct (slice_loop_ok (roles_of ia) (missing_axis (w_self w)) [] 0)
    as (sl & Hrun & Hlen & Hent); [lia |].
  exists sl. rewrite plot_2D_cube_no_axes, Hrun by done.
  cbn. rewrite Hc. cbn. auto.
Qed.

(** X19: with no drawing surface supplied, a coordinate system that is
    not two-dimensional and exactly two dimensions not flagged missing,
    the slice descriptor handed to [gca_wcs] has one entry per coordinate
    dimension, taken in order: a dimension flagged missing is fixed to
    index 1, and a dimension not flagged missing gets the next image-axis
    role. *)
Theorem plot_2D_cube_slice_descriptor
    (ia : option (list string)) (kw : kwargs) (w : world) :
  naxis (wcs (w_self w)) <> 2%Z ->
  count_not_missing (missing_axis (w_self w)) = 2 ->
  2 <= length (roles_of ia) ->
  exists sl : list slice_item,
    _plot_2D_cube None ia kw w
    = (inr (AxesImage (WCSAxes (wcs (w_self w)) sl) (data (w_self w)) kw),
       logged w [GcaWcs (wcs (w_self w)) sl;
                 Render (AxesImage (WCSAxes (wcs (w_self w)) sl)
                           (data (w_self w)) kw)])
    /\ length sl = length (missing_axis (w_self w))
    /\ (forall i, missing_axis (w_self w) !! i = Some true ->
          sl !! i = Some (SIndex 1))
    /\ (forall i, missing_axis (w_self w) !! i = Some false ->
          sl !! i
          = SRole <$> roles_of ia
                        !! count_not_missing (take i (missing_axis (w_self w))))
    /\ forall i,
         sl !! i = descriptor_entry (roles_of ia) (missing_axis (w_self w)) i.
Proof.
  intros Hn Hc Hr.
  destruct (plot_2D_cube_renders ia kw w Hn Hc Hr) as (sl & Hrun & Hlen & Hent).
  exists sl. repeat split; try done.
  - intros i Hi. rewrite Hent. unfold descriptor_entry. by rewrite Hi.
  - intros i Hi. rewrite Hent. unfold descriptor_entry. by rewrite Hi.
Qed.

(** Where the count is compared: with no drawing surface supplied and a
    coordinate system that is not two-dimensional, a count of non-missing
    dimensions that differs from 2, and for which the image-axis roles
    suffice, raises the dimensionality error with no collaborator call
    made. *)
Theorem plot_2D_cube_dims_mismatch
    (ia : option (list string)) (kw : kwargs) (w : world) :
  naxis (wcs (w_self w)) <> 2%Z ->
  count_not_missing (missing_axis (w_self w)) <> 2 ->
  count_not_missing (missing_axis (w_self w)) <= length (roles_of ia) ->
  _plot_2D_cube None ia kw w = (inl ValueError_dims_mismatch, w).
Proof.
  intros Hn Hc Hr.
  destruct (slice_loop_ok (roles_of ia) (missing_axis (w_self w)) [] 0)
    as (sl & Hrun & _); [lia |].
  rewrite plot_2D_cube_no_axes, Hrun by done. cbn.
  apply Nat.eqb_neq in Hc. by rewrite Hc.
Qed.

(** More non-missing dimensions than roles: the loop fails on
    [image_axes[index]] before the count is compared. *)
Lemma plot_2D_cube_out_of_roles
    (ia : option (list string)) (kw : kwargs) (w : world) :
  naxis (wcs (w_self w)) <> 2%Z ->
  length (roles_of ia) < count_not_missing (missing_axis (w_self w)) ->
  _plot_2D_cube None ia kw w = (inl IndexError, w).
Proof.
  intros Hn Hr.
  rewrite plot_2D_cube_no_axes by done.
  rewrite slice_loop_out_of_roles; [done | lia | lia].
Qed.

(** ** No state *)

(** C8: a call of [plot] leaves the cube (data array, unit, coordinate
    system, missing-axis flags, physical-axis types) as it was, whether it
    returns or raises; it only appends to the log of collaborator calls;
    and its outcome does not depend on earlier calls. *)
Theorem plot_leaves_cube_unchanged
    (ax : option user_axes) (ia : image_axes_arg) (ux uy : option Unit)
    (ar : option ranges) (u : option Unit) (kw : kwargs) (w : world) :
  w_self (snd (plot ax ia ux uy ar u kw w)) = w_self w
  /\ (exists cs, w_calls (snd (plot ax ia ux uy ar u kw w)) = w_calls w ++ cs)
  /\ (forall l, fst (plot ax ia ux uy ar u kw (mk_world (w_self w) l))
                = fst (plot ax ia ux uy ar u kw w))
  /\ (forall ax' ia' ux' uy' ar' u' kw',
         fst (plot ax ia ux uy ar u kw (snd (plot ax' ia' ux' uy' ar' u' kw' w)))
         = fst (plot ax ia ux uy ar u kw w)).
Proof.
  destruct w as [c l0].
  destruct (parametric_plot ax ia ux uy ar u kw c) as (r & cs & Hr).
  cbn [w_self w_calls]. rewrite !Hr. cbn [fst snd w_self w_calls].
  repeat split.
  - by exists cs.
  - intros l. by rewrite Hr.
  - intros ax' ia' ux' uy' ar' u' kw'.
    destruct (parametric_plot ax' ia' ux' uy' ar' u' kw' c) as (r' & cs' & Hr').
    rewrite Hr'. cbn [snd]. by rewrite Hr.
Qed.

(** ** The 1D line strategies *)

Ltac run :=
  unfold plt_plot, bind, self, index_or_raise, collab, ret, raise, render, call,
    logged;
  cbn [fst snd w_self w_calls].

Lemma convert_x_converted (x x' : Quantity) (ux : option Unit) (w : world) :
  converted x ux x' -> convert_x x ux w = (inr x', w).
Proof.
  destruct ux as [u |]; cbn; intros H; run; [by rewrite H | by subst].
Qed.

Lemma convert_x_frame (x : Quantity) (ux : option Unit) (w : world) :
  (exists e, convert_x x ux w = (inl e, w))
  \/ (exists x', converted x ux x' /\ convert_x x ux w = (inr x', w)).
Proof.
  destruct ux as [u |]; cbn; run.
  - destruct (to x u) as [e | x'] eqn:E; eauto.
  - eauto.
Qed.

Lemma convert_x_if_truthy_converted
    (x x' : Quantity) (ux : option Unit) (w : world) :
  converted_if_truthy x ux x' -> convert_x_if_truthy x ux w = (inr x', w).
Proof.
  destruct ux as [u |]; cbn; [destruct (unit_truthy u) |]; intros H; run;
    [by rewrite H | by subst | by subst].
Qed.

Lemma convert_x_if_truthy_frame (x : Quantity) (ux : option Unit) (w : world) :
  (exists e, convert_x_if_truthy x ux w = (inl e, w))
  \/ (exists x', converted_if_truthy x ux x'
                 /\ convert_x_if_truthy x ux w = (inr x', w)).
Proof.
  destruct ux as [u |]; cbn; [destruct (unit_truthy u) eqn:Hu |]; run.
  - destruct (to x u) as [e | x'] eqn:E; eauto.
  - eauto.
  - eauto.
Qed.

(** [_plot_1D_cube] up to the point where [unit_y_axis] is looked at. *)
Definition x_data_1D (c : NDCube) (ux : option Unit) (x' : Quantity) : Prop :=
  exists n world x,
    shape (data c) !! 0 = Some n
    /\ pixel_to_world c (seq 0 n) = inr world
    /\ world !! 0 = Some x
    /\ converted x ux x'.

(** [_animate_cube_1D] up to the point where [unit_y_axis] is looked at:
    the coordinates along the axis, and the position [n] of the axis in
    [axis_ranges]. *)
Definition x_data_animate (c : NDCube) (plot_axis_index : Z) (ux : option Unit)
    (x' : Quantity) (n : nat) : Prop :=
  exists x,
    axis_world_coords c plot_axis_index = inr x
    /\ converted_if_truthy x ux x'
    /\ py_norm (ndim (data c)) plot_axis_index = Some n.



(** Without [unit_y_axis]: [plt.plot] is called on the raw array, with the
    cube's own unit in the label, and raises. *)
Lemma plot_1D_cube_raw (ux : option Unit) kw (w : world) (x' : Quantity)
    (name : string) :
  x_data_1D (w_self w) ux x' ->
  world_axis_physical_types (w_self w) !! 0 = Some name ->
  _plot_1D_cube ux None kw w
  = (inl (AttributeError_Line2D "xlabel"),
     logged w [Render (Line2D x' (RawData (data (w_self w))) (xlabel_of name ux)
                         (ylabel_of (cube_unit (w_self w))) kw)]).
Proof.
  intros (n & world & x & Hn & Hp & Hx & Hc) Hname. unfold _plot_1D_cube. run.
  rewrite Hn, Hp, Hx, (convert_x_converted _ _ _ _ Hc), Hname. done.
Qed.



Lemma animate_cube_1D_no_unit_y_fails (i : Z) (ux : option Unit) kw (w : world) :
  exists e, _animate_cube_1D i ux None kw w = (inl e, w).
Proof.
  unfold _animate_cube_1D. run.
  destruct (axis_world_coords (w_self w) i) as [e | x]; [eauto |].
  destruct (convert_x_if_truthy_frame x ux w) as [[e ->] | (x' & _ & ->)];
    [eauto |].
  destruct (py_setitem _ _ _); eauto.
Qed.

Lemma animate_cube_1D_no_unit_y_unbound
    (i : Z) (ux : option Unit) kw (w : world) (x' : Quantity) (n : nat) :
  x_data_animate (w_self w) i ux x' n ->
  _animate_cube_1D i ux None kw w = (inl (UnboundLocalError "data"), w).
Proof.
  intros (x & Hx & Hc & Hn). unfold _animate_cube_1D. run.
  rewrite Hx, (convert_x_if_truthy_converted _ _ _ _ Hc).
  unfold py_setitem. rewrite length_replicate, Hn. done.
Qed.

(** A falsy [unit_y_axis] (the empty string) is no request at all. *)
Lemma animate_cube_1D_falsy_unit_y_unbound
    (i : Z) (ux : option Unit) (uy : Unit) kw (w : world) (x' : Quantity)
    (n : nat) :
  unit_truthy uy = false ->
  x_data_animate (w_self w) i ux x' n ->
  _animate_cube_1D i ux (Some uy) kw w = (inl (UnboundLocalError "data"), w).
Proof.
  intros Ht (x & Hx & Hc & Hn). unfold _animate_cube_1D. run.
  rewrite Hx, (convert_x_if_truthy_converted _ _ _ _ Hc).
  unfold py_setitem. rewrite length_replicate, Hn, Ht. done.
Qed.




(** ** Dispatch in [plot] *)

Lemma plot_single_axis ax ia ux uy ar u kw (w : world) (i : Z) :
  1 < ndim (data (w_self w)) ->
  plot_axis_index_of (default_image_axes ia) = Some i ->
  plot ax ia ux uy ar u kw w = _animate_cube_1D i ux uy kw w.
Proof.
  intros Hn Hi. unfold plot. run. rewrite Hi.
  by rewrite bool_decide_eq_true_2.
Qed.

(** The [else] branch of line 69, for a list of image axes. *)
Lemma plot_by_rank ax ia ux uy ar u kw (w : world) (l : list Z) :
  default_image_axes ia = ia_list l ->
  length l <> 1 \/ ndim (data (w_self w)) <= 1 ->
  plot ax ia ux uy ar u kw w
  = match py_getitem l 1 with
    | None => (inl IndexError, w)
    | Some i1 =>
        match py_setitem ["x"; "x"] i1 "y" with
        | None => (inl IndexError, w)
        | Some axis_data =>
            if bool_decide (3 <= ndim (data (w_self w))) then
              _plot_3D_cube (Some l) ux uy ar kw w
            else if bool_decide (ndim (data (w_self w)) = 2) then
              _plot_2D_cube ax (Some (reverse axis_data)) kw w
            else if bool_decide (ndim (data (w_self w)) = 1) then
              _plot_1D_cube ux uy kw w
            else (inl (UnboundLocalError "plot"), w)
        end
    end.
Proof.
  intros Hd Hor. unfold plot. rewrite Hd.
  assert (match plot_axis_index_of (ia_list l),
                bool_decide (1 < ndim (data (w_self w))) with
          | Some _, true => false
          | _, _ => true
          end = true) as Hsel.
  { destruct Hor as [Hl | Hn].
    - destruct l as [| a [| b l']]; cbn in *; try done.
    - rewrite (bool_decide_eq_false_2 (1 < _)) by lia.
      by destruct (plot_axis_index_of _). }
  run.
  destruct (plot_axis_index_of (ia_list l)) as [p |];
    destruct (bool_decide (1 < ndim (data (w_self w)))); try done;
    cbn; destruct (py_getitem l 1) as [i1 |]; cbn; try done;
    destruct (py_setitem _ i1 _) as [ad |]; cbn; try done;
    repeat case_bool_decide; done.
Qed.

Lemma axis_data_in_range (b : Z) :
  (-2 <= b <= 1)%Z ->
  exists axis_data,
    py_setitem ["x"; "x"] b "y" = Some axis_data /\ length axis_data = 2.
Proof.
  intros Hb.
  assert (b = -2 \/ b = -1 \/ b = 0 \/ b = 1)%Z as [-> | [-> | [-> | ->]]] by lia;
    eexists; split; reflexivity.
Qed.

(** The image axes [plot] passes on when the argument is omitted or is
    a list of two axes whose second one addresses [axis_data]. *)
Definition two_image_axes (ia : image_axes_arg) (l : list Z) (b : Z) : Prop :=
  (truthy ia = false /\ l = [-1; -2]%Z /\ b = (-2)%Z)
  \/ (exists a, ia = ia_list [a; b] /\ l = [a; b] /\ (-2 <= b <= 1)%Z).

Lemma two_image_axes_default ia l b :
  two_image_axes ia l b ->
  default_image_axes ia = ia_list l /\ length l <> 1
  /\ py_getitem l 1 = Some b /\ (-2 <= b <= 1)%Z.
Proof.
  intros [(Ht & -> & ->) | (a & -> & -> & Hb)].
  - unfold default_image_axes. rewrite Ht. cbn. repeat split; done.
  - repeat split; cbn; try done; lia.
Qed.

Lemma plot_rank1 ax ia ux uy ar u kw (w : world) l b :
  ndim (data (w_self w)) = 1 ->
  two_image_axes ia l b ->
  plot ax ia ux uy ar u kw w = _plot_1D_cube ux uy kw w.
Proof.
  intros Hn (Hd & Hl & Hg & Hb)%two_image_axes_default.
  destruct (axis_data_in_range b Hb) as (ad & Had & _).
  rewrite (plot_by_rank _ _ _ _ _ _ _ _ l) by auto.
  rewrite Hg, Had, Hn. done.
Qed.

Lemma plot_rank1_one_element_list ax ux uy ar u kw (w : world) (i : Z) :
  ndim (data (w_self w)) = 1 ->
  plot ax (ia_list [i]) ux uy ar u kw w = (inl IndexError, w).
Proof.
  intros Hn. rewrite (plot_by_rank _ _ _ _ _ _ _ _ [i]); [done | done | lia].
Qed.

Lemma plot_rank1_scalar ax ux uy ar u kw (w : world) (i : Z) :
  ndim (data (w_self w)) = 1 ->
  i <> 0%Z ->
  plot ax (ia_int i) ux uy ar u kw w = (inl TypeError_not_subscriptable, w).
Proof.
  intros Hn Hi. unfold plot, default_image_axes. cbn.
  apply Z.eqb_neq in Hi. rewrite Hi. cbn. run. rewrite Hn. done.
Qed.

Lemma plot_rank2 ax ia ux uy ar u kw (w : world) l b :
  ndim (data (w_self w)) = 2 ->
  two_image_axes ia l b ->
  exists roles,
    plot ax ia ux uy ar u kw w = _plot_2D_cube ax (Some roles) kw w
    /\ length roles = 2.
Proof.
  intros Hn (Hd & Hl & Hg & Hb)%two_image_axes_default.
  destruct (axis_data_in_range b Hb) as (ad & Had & Hlen).
  exists (reverse ad). split; [| by rewrite length_reverse].
  rewrite (plot_by_rank _ _ _ _ _ _ _ _ l) by auto.
  rewrite Hg, Had, Hn. done.
Qed.

(** X20: for a rank-2 cube, with no drawing surface supplied and the
    image axes omitted or given as two axes, [plot] runs the static 2D
    image strategy; when the coordinate system is not two-dimensional and
    has exactly two non-missing dimensions, the call returns the image
    drawn on a surface obtained from the coordinate system. *)
Theorem plot_rank2_static_image
    (ia : image_axes_arg) (ux uy : option Unit) (ar : option ranges)
    (u : option Unit) (kw : kwargs) (w : world) (l : list Z) (b : Z) :
  ndim (data (w_self w)) = 2 ->
  two_image_axes ia l b ->
  naxis (wcs (w_self w)) <> 2%Z ->
  count_not_missing (missing_axis (w_self w)) = 2 ->
  exists (roles : list string) (sl : list slice_item),
    plot None ia ux uy ar u kw w = _plot_2D_cube None (Some roles) kw w
    /\ (let p := AxesImage (WCSAxes (wcs (w_self w)) sl) (data (w_self w)) kw in
        plot None ia ux uy ar u kw w
        = (inr p, logged w [GcaWcs (wcs (w_self w)) sl; Render p]))
    /\ length sl = length (missing_axis (w_self w)).
Proof.
  intros Hn Hia Hw Hc.
  destruct (plot_rank2 None ia ux uy ar u kw w l b Hn Hia) as (roles & Hp & Hlen).
  destruct (plot_2D_cube_renders (Some roles) kw w Hw Hc)
    as (sl & Hrun & Hsl & _).
  { rewrite roles_of_length_plot by done. lia. }
  exists roles, sl. rewrite Hp. auto.
Qed.

(** C9: without [unit_y_axis] the animated 1D line strategy never
    returns a plot and never reaches the line animator; once the axis
    coordinates are in place the exception is the unbound local [data].
    The same holds through [plot] for a cube of rank above 1. *)
Theorem animate_cube_1D_without_unit_y_axis
    (i : Z) (ux : option Unit) (kw : kwargs) (w : world) :
  (exists e, _animate_cube_1D i ux None kw w = (inl e, w))
  /\ (forall x' n, x_data_animate (w_self w) i ux x' n ->
        _animate_cube_1D i ux None kw w = (inl (UnboundLocalError "data"), w))
  /\ (forall ax ar u x' n,
        1 < ndim (data (w_self w)) ->
        x_data_animate (w_self w) i ux x' n ->
        plot ax (ia_list [i]) ux None ar u kw w
        = (inl (UnboundLocalError "data"), w)).
Proof.
  repeat split.
  - apply animate_cube_1D_no_unit_y_fails.
  - intros x' n Hx. by eapply animate_cube_1D_no_unit_y_unbound.
  - intros ax ar u x' n Hn Hx.
    rewrite (plot_single_axis _ _ _ _ _ _ _ _ i) by done.
    by eapply animate_cube_1D_no_unit_y_unbound.
Qed.

End Properties.

(** * Further properties of the methods *)

Section Coverage.

Context {T : Types} {L : Lookups T}.

Ltac run_m :=
  unfold plt_plot, bind, self, index_or_raise, collab, ret, raise, render, call,
    logged;
  cbn [fst snd w_self w_calls].

(** ** No partial rendering *)

Lemma silent_ret {A} (a : A) : silent (ret a).
Proof. intros w. by exists (inr a). Qed.

Lemma silent_raise {A} (e : exn) : silent (@raise _ A e).
Proof. intros w. by exists (inl e). Qed.

Lemma silent_self : silent self.
Proof. intros w. by exists (inr (w_self w)). Qed.

Lemma silent_index_or_raise {A} (o : option A) : silent (index_or_raise o).
Proof. destruct o; [apply silent_ret | apply silent_raise]. Qed.

Lemma silent_collab {A} (r : ext_err + A) : silent (collab r).
Proof. destruct r; [apply silent_raise | apply silent_ret]. Qed.

Lemma silent_convert_x (x : Quantity) ux : silent (convert_x x ux).
Proof. destruct ux; [apply silent_collab | apply silent_ret]. Qed.

Lemma silent_bind {A B} (m : M A) (f : A -> M B) :
  silent m -> (forall a, silent (f a)) -> silent (bind m f).
Proof.
  intros Hm Hf w. destruct (Hm w) as [[e | a] Hr]; unfold bind; rewrite Hr.
  - by exists (inl e).
  - apply Hf.
Qed.

Lemma all_or_nothing_raise (e : exn) : all_or_nothing (raise e).
Proof. intros w. left. by exists e. Qed.

Lemma all_or_nothing_render (p : RenderedPlot) : all_or_nothing (render p).
Proof. intros w. right. left. exists p, [Render p]. split; [done | by left]. Qed.

Lemma all_or_nothing_plt_plot x y xl yl kw :
  all_or_nothing (plt_plot (Line2D x y xl yl kw)).
Proof. intros w. right. right. by exists x, y, xl, yl, kw. Qed.

Lemma silent_convert_x_if_truthy (x : Quantity) ux :
  silent (convert_x_if_truthy x ux).
Proof.
  destruct ux as [u |]; cbn; [destruct (unit_truthy u) |];
    auto using silent_collab, silent_ret.
Qed.

(** Silent steps in front of a computation do not change what it draws. *)
Lemma all_or_nothing_bind {A} (m : M A) (f : A -> M RenderedPlot) :
  silent m -> (forall a, all_or_nothing (f a)) -> all_or_nothing (bind m f).
Proof.
  intros Hm Hf w. destruct (Hm w) as [[e | a] Hr]; unfold bind; rewrite Hr.
  - left. by exists e.
  - apply Hf.
Qed.

Ltac all_or_nothing_step :=
  first
    [ apply all_or_nothing_render
    | apply all_or_nothing_plt_plot
    | apply silent_convert_x_if_truthy
    | apply all_or_nothing_raise
    | apply all_or_nothing_bind; [| intros ?]
    | apply silent_bind; [| intros ?]
    | apply silent_convert_x
    | apply silent_ret
    | apply silent_raise
    | apply silent_self
    | apply silent_index_or_raise
    | apply silent_collab
    | match goal with
      | |- all_or_nothing (match ?x with _ => _ end) => destruct x
      | |- silent (match ?x with _ => _ end) => destruct x
      end ].

Lemma all_or_nothing_plot_3D_cube ia ux uy ar kw :
  all_or_nothing (_plot_3D_cube ia ux uy ar kw).
Proof. unfold _plot_3D_cube. repeat all_or_nothing_step. Qed.

Lemma all_or_nothing_plot_1D_cube ux uy kw :
  all_or_nothing (_plot_1D_cube ux uy kw).
Proof. unfold _plot_1D_cube. repeat all_or_nothing_step. Qed.

Lemma all_or_nothing_animate_cube_1D i ux uy kw :
  all_or_nothing (_animate_cube_1D i ux uy kw).
Proof. unfold _animate_cube_1D. repeat all_or_nothing_step. Qed.

Lemma all_or_nothing_plot_2D_cube ax ia kw :
  all_or_nothing (_plot_2D_cube ax ia kw).
Proof.
  intros w. destruct ax as [a |].
  - right. left. eexists _, _. split; [reflexivity | by left].
  - destruct (decide (naxis (wcs (w_self w)) = 2%Z)) as [Hn | Hn].
    + left. eexists. by apply plot_2D_cube_naxis_2.
    + rewrite plot_2D_cube_no_axes by done.
      destruct (slice_loop _ _ _ _) as [[sl index] |]; [| left; by eexists].
      destruct (index =? 2)%nat; [| left; by eexists].
      right. left. eexists _, _. split; [reflexivity |].
      right. by eexists _, _, _, _.
Qed.

(** X1: every exception of the mixin's own code, of a coordinate lookup
    or of a unit conversion is raised before any plotting call.  [plot]
    either raises with no collaborator call made, or returns a handle
    after exactly the rendering call that produced it (preceded by
    [gca_wcs] only when the image is drawn on a derived surface), or has
    made the one [plt.plot] call that raises [AttributeError]. *)
Theorem plot_raises_before_drawing
    (ax : option user_axes) (ia : image_axes_arg) (ux uy : option Unit)
    (ar : option ranges) (u : option Unit) (kw : kwargs) (w : world) :
  (exists e, plot ax ia ux uy ar u kw w = (inl e, w))
  \/ (exists p cs,
        plot ax ia ux uy ar u kw w = (inr p, logged w cs)
        /\ calls_of_plot p cs)
  \/ (exists x y xl yl kw',
        plot ax ia ux uy ar u kw w
        = (inl (AttributeError_Line2D "xlabel"),
           logged w [Render (Line2D x y xl yl kw')])).
Proof.
  revert w. change (all_or_nothing (plot ax ia ux uy ar u kw)).
  unfold plot. apply all_or_nothing_bind; [apply silent_self | intros c].
  destruct (plot_axis_index_of _) as [i |];
    [destruct (bool_decide _); [apply all_or_nothing_animate_cube_1D |] |];
    (apply all_or_nothing_bind; [destruct (default_image_axes ia);
                                  auto using silent_ret, silent_raise | intros l]);
    (apply all_or_nothing_bind; [apply silent_index_or_raise | intros i1]);
    (apply all_or_nothing_bind; [apply silent_index_or_raise | intros ad]);
    repeat case_bool_decide;
    auto using all_or_nothing_plot_3D_cube, all_or_nothing_plot_2D_cube,
      all_or_nothing_plot_1D_cube, all_or_nothing_raise.
Qed.

(** ** Dispatch on the rank and on [image_axes] *)

Lemma default_image_axes_nonempty ia l :
  default_image_axes ia = ia_list l -> l <> [].
Proof.
  unfold default_image_axes.
  destruct (truthy ia) eqn:Ht; cbn; [| by intros [= <-]].
  intros ->. by destruct l.
Qed.

Lemma axis_data_out_of_range (b : Z) :
  ~ (-2 <= b <= 1)%Z -> py_setitem ["x"; "x"] b "y" = None.
Proof.
  intros Hb. unfold py_setitem, py_norm. cbn.
  rewrite !decide_False by lia. done.
Qed.

Lemma plot_3D_cube_run (l : list Z) ux uy ar kw (w : world) :
  l <> [] ->
  let p := ImageAnimatorWCS (data (w_self w)) (wcs (w_self w)) l ux uy ar kw in
  _plot_3D_cube (Some l) ux uy ar kw w = (inr p, logged w [Render p]).
Proof. intros Hl. by destruct l. Qed.

(** X2: on a cube of rank 3 or more, a list of image axes that is not a
    single axis and whose second entry is one of -2, -1, 0, 1 goes to the
    image animator unchanged, together with the cube's array and
    coordinate system, both display units and the axis ranges. *)
Theorem plot_image_animator
    (ax : option user_axes) (ia : image_axes_arg) (ux uy : option Unit)
    (ar : option ranges) (u : option Unit) (kw : kwargs) (w : world)
    (l : list Z) (b : Z) :
  3 <= ndim (data (w_self w)) ->
  default_image_axes ia = ia_list l ->
  length l <> 1 ->
  py_getitem l 1 = Some b ->
  (-2 <= b <= 1)%Z ->
  let p := ImageAnimatorWCS (data (w_self w)) (wcs (w_self w)) l ux uy ar kw in
  plot ax ia ux uy ar u kw w = (inr p, logged w [Render p]).
Proof.
  intros Hn Hd Hl Hg Hb.
  destruct (axis_data_in_range b Hb) as (ad & Had & _).
  rewrite (plot_by_rank _ _ _ _ _ _ _ _ l) by auto.
  rewrite Hg, Had, bool_decide_eq_true_2 by done.
  apply plot_3D_cube_run. by eapply default_image_axes_nonempty.
Qed.

(** X3: whatever the rank, a list of image axes that is not a single axis
    and whose second entry is outside -2 .. 1 makes [plot] raise
    [IndexError] at [axis_data[image_axes[1]]], before any strategy runs. *)
Theorem plot_second_image_axis_out_of_range
    (ax : option user_axes) (ia : image_axes_arg) (ux uy : option Unit)
    (ar : option ranges) (u : option Unit) (kw : kwargs) (w : world)
    (l : list Z) (b : Z) :
  default_image_axes ia = ia_list l ->
  length l <> 1 ->
  py_getitem l 1 = Some b ->
  ~ (-2 <= b <= 1)%Z ->
  plot ax ia ux uy ar u kw w = (inl IndexError, w).
Proof.
  intros Hd Hl Hg Hb.
  rewrite (plot_by_rank _ _ _ _ _ _ _ _ l) by auto.
  by rewrite Hg, axis_data_out_of_range.
Qed.

(** X4: on a zero-dimensional array [plot] never returns; with the
    image axes left to their default no branch binds the local [plot] and
    the [return] raises [UnboundLocalError]. *)
Theorem plot_rank0_never_returns
    (ax : option user_axes) (ia : image_axes_arg) (ux uy : option Unit)
    (ar : option ranges) (u : option Unit) (kw : kwargs) (w : world) :
  ndim (data (w_self w)) = 0 ->
  (exists e, plot ax ia ux uy ar u kw w = (inl e, w))
  /\ (truthy ia = false ->
      plot ax ia ux uy ar u kw w = (inl (UnboundLocalError "plot"), w)).
Proof.
  intros Hn. split.
  - unfold plot. run_m. rewrite Hn. cbn.
    destruct (plot_axis_index_of _); cbn;
      destruct (default_image_axes ia) as [| i | l]; cbn; eauto;
      destruct (py_getitem l 1) as [i1 |]; cbn; eauto;
      destruct (py_setitem _ i1 _); cbn; eauto.
  - intros Ht. unfold plot, default_image_axes. rewrite Ht. cbn.
    run_m. rewrite Hn. done.
Qed.

(** X5: a rank-2 cube with a two-dimensional coordinate system, plotted
    without a drawing surface and with two image axes, always raises
    [UnboundLocalError]: [slice_list] is read at line 154 and was never
    assigned.  Nothing is drawn. *)
Theorem plot_rank2_two_dimensional_wcs
    (ia : image_axes_arg) (ux uy : option Unit) (ar : option ranges)
    (u : option Unit) (kw : kwargs) (w : world) (l : list Z) (b : Z) :
  ndim (data (w_self w)) = 2 ->
  two_image_axes ia l b ->
  naxis (wcs (w_self w)) = 2%Z ->
  plot None ia ux uy ar u kw w = (inl (UnboundLocalError "slice_list"), w).
Proof.
  intros Hn Hia Hw.
  destruct (plot_rank2 None ia ux uy ar u kw w l b Hn Hia) as (roles & -> & _).
  by apply plot_2D_cube_naxis_2.
Qed.

(** X6: a rank-2 cube plotted on a surface supplied by the caller gets its
    image drawn there, whatever its coordinate system and missing-axis
    flags are; [gca_wcs] is not called. *)
Theorem plot_rank2_supplied_axes
    (a : user_axes) (ia : image_axes_arg) (ux uy : option Unit)
    (ar : option ranges) (u : option Unit) (kw : kwargs) (w : world)
    (l : list Z) (b : Z) :
  ndim (data (w_self w)) = 2 ->
  two_image_axes ia l b ->
  let p := AxesImage (SuppliedAxes a) (data (w_self w)) kw in
  plot (Some a) ia ux uy ar u kw w = (inr p, logged w [Render p]).
Proof.
  intros Hn Hia.
  by destruct (plot_rank2 (Some a) ia ux uy ar u kw w l b Hn Hia) as (roles & -> & _).
Qed.

(** X7: a rank-2 cube whose coordinate system is not two-dimensional and
    keeps a number of dimensions other than 2, plotted without a drawing
    surface: fewer than two kept dimensions raise the dimensionality
    [ValueError], more than two raise [IndexError] when the loop asks for a
    third image-axis role.  Nothing is drawn in either case. *)
Theorem plot_rank2_count_mismatch
    (ia : image_axes_arg) (ux uy : option Unit) (ar : option ranges)
    (u : option Unit) (kw : kwargs) (w : world) (l : list Z) (b : Z) :
  ndim (data (w_self w)) = 2 ->
  two_image_axes ia l b ->
  naxis (wcs (w_self w)) <> 2%Z ->
  count_not_missing (missing_axis (w_self w)) <> 2 ->
  plot None ia ux uy ar u kw w
  = (inl (if (count_not_missing (missing_axis (w_self w)) <? 2)%nat
          then ValueError_dims_mismatch else IndexError), w).
Proof.
  intros Hn Hia Hw Hc.
  destruct (plot_rank2 None ia ux uy ar u kw w l b Hn Hia) as (roles & -> & Hlen).
  rewrite plot_2D_cube_no_axes by done.
  rewrite roles_of_length_plot by done.
  destruct (count_not_missing (missing_axis (w_self w)) <? 2)%nat eqn:Hlt.
  - apply Nat.ltb_lt in Hlt.
    destruct (slice_loop_ok roles (missing_axis (w_self w)) [] 0)
      as (sl & -> & _); [lia |].
    cbn. apply Nat.eqb_neq in Hc. by rewrite Hc.
  - apply Nat.ltb_ge in Hlt.
    rewrite slice_loop_out_of_roles; [done | lia | lia].
Qed.

(** X8: for a rank-2 cube only the second of two image axes matters: 0 or
    -2 hands the roles [['x', 'y']] to [_plot_2D_cube], 1 or -1 hands
    [['y', 'x']]; the first image axis is not looked at. *)
Theorem plot_rank2_roles
    (ax : option user_axes) (a b : Z) (ux uy : option Unit)
    (ar : option ranges) (u : option Unit) (kw : kwargs) (w : world) :
  ndim (data (w_self w)) = 2 ->
  (-2 <= b <= 1)%Z ->
  plot ax (ia_list [a; b]) ux uy ar u kw w
  = _plot_2D_cube ax (Some (roles_for_second_axis b)) kw w.
Proof.
  intros Hn Hb.
  rewrite (plot_by_rank _ _ _ _ _ _ _ _ [a; b]); [| done | left; cbn; lia].
  change (py_getitem [a; b] 1) with (Some b). cbv beta iota.
  assert (b = -2 \/ b = -1 \/ b = 0 \/ b = 1)%Z as [-> | [-> | [-> | ->]]] by lia;
    cbn; by rewrite Hn.
Qed.

(** X9: on a cube of rank above 1, a one-element list [[i]] and a
    non-zero scalar [i] both select the animated line on axis [i]. *)
Theorem plot_single_axis_animated
    (ax : option user_axes) (ia : image_axes_arg) (i : Z) (ux uy : option Unit)
    (ar : option ranges) (u : option Unit) (kw : kwargs) (w : world) :
  1 < ndim (data (w_self w)) ->
  ia = ia_list [i] \/ (ia = ia_int i /\ i <> 0%Z) ->
  plot ax ia ux uy ar u kw w = _animate_cube_1D i ux uy kw w.
Proof.
  intros Hn Hia. apply plot_single_axis; [done |].
  destruct Hia as [-> | [-> Hi]]; [done |].
  unfold default_image_axes. cbn. apply Z.eqb_neq in Hi. by rewrite Hi.
Qed.

(** X10: every falsy [image_axes] (omitted, the empty list, the scalar 0)
    is indistinguishable from the explicit default [[-1, -2]]. *)
Theorem plot_falsy_image_axes_default
    (ax : option user_axes) (ia : image_axes_arg) (ux uy : option Unit)
    (ar : option ranges) (u : option Unit) (kw : kwargs) (w : world) :
  truthy ia = false ->
  plot ax ia ux uy ar u kw w = plot ax (ia_list [-1; -2]%Z) ux uy ar u kw w.
Proof.
  intros Ht. unfold plot, default_image_axes. by rewrite Ht.
Qed.

Lemma plot_scalar_low_rank ax ia ux uy ar u kw (w : world) (z : Z) :
  default_image_axes ia = ia_int z ->
  ndim (data (w_self w)) <= 1 ->
  plot ax ia ux uy ar u kw w = (inl TypeError_not_subscriptable, w).
Proof.
  intros Hd Hn. unfold plot. rewrite Hd. run_m. cbn.
  by rewrite bool_decide_eq_false_2 by lia.
Qed.

Lemma default_image_axes_not_None ia : default_image_axes ia <> ia_None.
Proof.
  unfold default_image_axes. destruct (truthy ia) eqn:Ht; cbn; [| done].
  by destruct ia.
Qed.

(** X11: arguments [plot] does not use.  [unit] is never looked at; the
    drawing surface [axes] only matters for a rank-2 cube; [axis_ranges]
    only matters for a cube of rank 3 or more. *)
Theorem plot_unused_arguments
    (ax : option user_axes) (ia : image_axes_arg) (ux uy : option Unit)
    (ar : option ranges) (u : option Unit) (kw : kwargs) (w : world) :
  (forall u', plot ax ia ux uy ar u' kw w = plot ax ia ux uy ar u kw w)
  /\ (ndim (data (w_self w)) <> 2 ->
      forall ax', plot ax' ia ux uy ar u kw w = plot ax ia ux uy ar u kw w)
  /\ (ndim (data (w_self w)) < 3 ->
      forall ar', plot ax ia ux uy ar' u kw w = plot ax ia ux uy ar u kw w).
Proof.
  split; [done |]. split.
  - intros Hn ax'. unfold plot. run_m.
    destruct (plot_axis_index_of _) as [i |],
        (bool_decide (1 < ndim (data (w_self w))));
      try done;
      destruct (default_image_axes ia) as [| z | l]; cbn; try done;
      destruct (py_getitem l 1) as [i1 |]; cbn; try done;
      destruct (py_setitem _ i1 _); cbn; try done;
      repeat case_bool_decide; done.
  - intros Hn ar'. unfold plot. run_m.
    destruct (plot_axis_index_of _) as [i |],
        (bool_decide (1 < ndim (data (w_self w))));
      try done;
      destruct (default_image_axes ia) as [| z | l]; cbn; try done;
      destruct (py_getitem l 1) as [i1 |]; cbn; try done;
      destruct (py_setitem _ i1 _); cbn; try done;
      repeat case_bool_decide; try done; lia.
Qed.

(** ** What a returned handle tells *)

Lemma plot_2D_cube_returns_image ax ia kw (w w' : world) (p : RenderedPlot) :
  _plot_2D_cube ax ia kw w = (inr p, w') ->
  exists axs, p = AxesImage axs (data (w_self w)) kw.
Proof.
  destruct ax as [a |].
  - intros [= <- _]. by eexists.
  - destruct (decide (naxis (wcs (w_self w)) = 2%Z)) as [Hn | Hn].
    + by rewrite plot_2D_cube_naxis_2.
    + rewrite plot_2D_cube_no_axes by done.
      destruct (slice_loop _ _ _ _) as [[sl index] |]; [| done].
      destruct (index =? 2)%nat; [| done].
      intros [= <- _]. by eexists.
Qed.

(** [plt.plot] is the last step of [_plot_1D_cube], and it raises. *)
Lemma plot_1D_cube_never_returns ux uy kw (w w' : world) (p : RenderedPlot) :
  _plot_1D_cube ux uy kw w <> (inr p, w').
Proof.
  unfold _plot_1D_cube. run_m.
  destruct (shape (data (w_self w)) !! 0) as [n |]; [| done].
  destruct (pixel_to_world (w_self w) (seq 0 n)) as [e | world]; [done |].
  destruct (world !! 0) as [x |]; [| done].
  destruct (convert_x_frame x ux w) as [[e ->] | (x' & _ & ->)]; [done |].
  destruct uy as [uy |].
  - destruct (cube_unit (w_self w)) as [u0 |]; [| done].
    destruct (to _ uy) as [e | q]; [done |].
    by destruct (world_axis_physical_types (w_self w) !! 0).
  - by destruct (world_axis_physical_types (w_self w) !! 0).
Qed.

Lemma animate_cube_1D_returns_animator i ux uy kw (w w' : world)
    (p : RenderedPlot) :
  _animate_cube_1D i ux uy kw w = (inr p, w') ->
  exists d r xl yl, p = LineAnimator d i r xl yl kw.
Proof.
  unfold _animate_cube_1D. run_m.
  destruct (axis_world_coords (w_self w) i) as [e | x]; [done |].
  destruct (convert_x_if_truthy_frame x ux w) as [[e ->] | (x' & _ & ->)];
    [done |].
  destruct (py_setitem _ _ _); [| done].
  destruct uy as [uy |]; [| done].
  destruct (unit_truthy uy); [| done].
  destruct (cube_unit (w_self w)) as [u0 |]; [| done].
  destruct (to _ uy) as [e | q]; [done |].
  destruct (py_getitem _ _); [| done].
  intros [= <- _]. by eexists _, _, _, _.
Qed.

(** X12: the kind of handle [plot] returns is tied to the rank: a line
    animator only for rank above 1 and on the single axis asked for, an
    image animator only for rank 3 or more and on the image axes in
    force, an image only for rank 2, a line only for rank 1; the image
    and the image animator carry the cube's own array. *)
Theorem plot_handle_fits_rank
    (ax : option user_axes) (ia : image_axes_arg) (ux uy : option Unit)
    (ar : option ranges) (u : option Unit) (kw : kwargs) (w w' : world)
    (p : RenderedPlot) :
  plot ax ia ux uy ar u kw w = (inr p, w') ->
  handle_fits (w_self w) ia p.
Proof.
  intros H.
  destruct (plot_axis_index_of (default_image_axes ia)) as [i |] eqn:Hi.
  - destruct (decide (1 < ndim (data (w_self w)))) as [Hn | Hn].
    { rewrite (plot_single_axis _ _ _ _ _ _ _ _ i) in H by done.
      apply animate_cube_1D_returns_animator in H as (d & r & xl & yl & ->).
      by split. }
    destruct (default_image_axes ia) as [| z | l] eqn:Hd; [done | |].
    { rewrite (plot_scalar_low_rank _ _ _ _ _ _ _ _ z) in H by (done || lia).
      done. }
    rewrite (plot_by_rank _ _ _ _ _ _ _ _ l) in H by (done || right; lia).
    destruct (py_getitem l 1) as [i1 |]; [| done].
    destruct (py_setitem _ i1 _) as [ad |]; [| done].
    rewrite bool_decide_eq_false_2 in H by lia.
    rewrite (bool_decide_eq_false_2 (_ = 2)) in H by lia.
    case_bool_decide; [| done].
    by apply plot_1D_cube_never_returns in H.
  - destruct (default_image_axes ia) as [| z | l] eqn:Hd.
    { by apply default_image_axes_not_None in Hd. }
    { done. }
    rewrite (plot_by_rank _ _ _ _ _ _ _ _ l) in H;
      [| done | left; by destruct l as [| ? [| ? ?]]].
    destruct (py_getitem l 1) as [i1 |]; [| done].
    destruct (py_setitem _ i1 _) as [ad |]; [| done].
    repeat case_bool_decide; try done.
    + rewrite plot_3D_cube_run in H by (by eapply default_image_axes_nonempty).
      injection H as <- _. by repeat split.
    + apply plot_2D_cube_returns_image in H as (axs & ->). by split.
    + by apply plot_1D_cube_never_returns in H.
Qed.

(** ** The 1D line strategies: conversions, bounds, failures *)

(** X13: with [unit_y_axis] given and a cube that carries a unit, the
    static 1D line strategy hands [plt.plot] the array converted from the
    cube's unit to [unit_y_axis], with [unit_y_axis] in the y label; that
    is its only plotting call, and the call raises. *)
Theorem plot_1D_cube_converted
    (ux : option Unit) (uy : Unit) (kw : kwargs) (w : world)
    (x' : Quantity) (u0 : Unit) (q : Quantity) (name : string) :
  x_data_1D (w_self w) ux x' ->
  cube_unit (w_self w) = Some u0 ->
  to (mk_Quantity (data (w_self w)) u0) uy = inr q ->
  world_axis_physical_types (w_self w) !! 0 = Some name ->
  let p := Line2D x' (Converted q) (xlabel_of name ux) (ylabel_of (Some uy)) kw in
  _plot_1D_cube ux (Some uy) kw w
  = (inl (AttributeError_Line2D "xlabel"), logged w [Render p]).
Proof.
  intros (n & world & x & Hn & Hp & Hx & Hc) Hu Hq Hname.
  unfold _plot_1D_cube. run_m.
  rewrite Hn, Hp, Hx, (convert_x_converted _ _ _ _ Hc), Hu. cbn.
  rewrite Hq. cbn. by rewrite Hname.
Qed.

(** X14: a rank-1 cube is never plotted.  With the image axes left alone
    and no [unit_y_axis], [plot] calls [plt.plot] on the raw array against
    the world coordinates of the pixels [0 .. n-1], labelled with the
    cube's own unit, and that call raises [AttributeError] because
    [xlabel] and [ylabel] are passed as keywords of the line; whatever the
    arguments are, [plot] returns no handle for such a cube. *)
Theorem plot_rank1_line
    (ax : option user_axes) (ia : image_axes_arg) (ux uy : option Unit)
    (ar : option ranges) (u : option Unit) (kw : kwargs) (w : world) :
  ndim (data (w_self w)) = 1 ->
  (forall p w', plot ax ia ux uy ar u kw w <> (inr p, w'))
  /\ (forall l b x' name,
        two_image_axes ia l b ->
        x_data_1D (w_self w) ux x' ->
        world_axis_physical_types (w_self w) !! 0 = Some name ->
        plot ax ia ux None ar u kw w
        = (inl (AttributeError_Line2D "xlabel"),
           logged w [Render (Line2D x' (RawData (data (w_self w)))
                               (xlabel_of name ux)
                               (ylabel_of (cube_unit (w_self w))) kw)])).
Proof.
  intros Hn. split.
  - intros p w'.
    destruct (default_image_axes ia) as [| z | l] eqn:Hd.
    + by apply default_image_axes_not_None in Hd.
    + by rewrite (plot_scalar_low_rank _ _ _ _ _ _ _ _ z) by (done || lia).
    + rewrite (plot_by_rank _ _ _ _ _ _ _ _ l) by (done || right; lia).
      destruct (py_getitem l 1) as [i1 |]; [| done].
      destruct (py_setitem _ i1 _) as [ad |]; [| done].
      rewrite Hn.
      rewrite (bool_decide_eq_false_2 (3 <= 1)) by lia.
      rewrite (bool_decide_eq_false_2 (1 = 2)) by lia.
      rewrite (bool_decide_eq_true_2 (1 = 1)) by done.
      apply plot_1D_cube_never_returns.
  - intros l b x' name Hia Hx Hname.
    rewrite (plot_rank1 _ _ _ _ _ _ _ _ l b) by done.
    by apply plot_1D_cube_raw.
Qed.

(** X15: when the coordinate lookup returns for a plot axis outside
    [-ndim .. ndim-1], the animated strategy raises [IndexError] at
    [axis_ranges[plot_axis_index] = ...], whatever the units are. *)
Theorem animate_cube_1D_axis_out_of_range
    (i : Z) (ux uy : option Unit) (kw : kwargs) (w : world) (x x' : Quantity) :
  axis_world_coords (w_self w) i = inr x ->
  converted_if_truthy x ux x' ->
  ~ (- Z.of_nat (ndim (data (w_self w))) <= i
     < Z.of_nat (ndim (data (w_self w))))%Z ->
  _animate_cube_1D i ux uy kw w = (inl IndexError, w).
Proof.
  intros Hx Hc Hi. unfold _animate_cube_1D. run_m.
  rewrite Hx, (convert_x_if_truthy_converted _ _ _ _ Hc).
  unfold py_setitem. rewrite length_replicate.
  destruct (py_norm _ i) as [n |] eqn:Hn; [| done].
  destruct Hi. apply py_norm_is_Some. by eexists.
Qed.

(** X16: in the static 1D line strategy every failure on the way to the
    x data is raised as it is and nothing is drawn, whatever
    [unit_y_axis] and the cube's unit are: a zero-dimensional array gives
    [IndexError] at [shape[0]], a failing lookup or x conversion gives the
    collaborator's exception. *)
Theorem plot_1D_cube_x_data_errors
    (ux uy : option Unit) (kw : kwargs) (w : world) :
  (shape (data (w_self w)) !! 0 = None ->
     _plot_1D_cube ux uy kw w = (inl IndexError, w))
  /\ (forall n e,
        shape (data (w_self w)) !! 0 = Some n ->
        pixel_to_world (w_self w) (seq 0 n) = inl e ->
        _plot_1D_cube ux uy kw w = (inl (CollaboratorError e), w))
  /\ (forall n world x u e,
        shape (data (w_self w)) !! 0 = Some n ->
        pixel_to_world (w_self w) (seq 0 n) = inr world ->
        world !! 0 = Some x ->
        ux = Some u ->
        to x u = inl e ->
        _plot_1D_cube ux uy kw w = (inl (CollaboratorError e), w)).
Proof.
  repeat split.
  - intros Hn. unfold _plot_1D_cube. run_m. by rewrite Hn.
  - intros n e Hn Hp. unfold _plot_1D_cube. run_m. by rewrite Hn, Hp.
  - intros n world x u e Hn Hp Hx -> Hto. unfold _plot_1D_cube. run_m.
    rewrite Hn, Hp, Hx. unfold convert_x. run_m. by rewrite Hto.
Qed.

(** X17: in the animated 1D line strategy a failing coordinate lookup,
    or a failing conversion to a truthy [unit_x_axis], is raised as it is
    and nothing is drawn, whatever [unit_y_axis] and the cube's unit
    are. *)
Theorem animate_cube_1D_x_data_errors
    (i : Z) (ux uy : option Unit) (kw : kwargs) (w : world) :
  (forall e,
     axis_world_coords (w_self w) i = inl e ->
     _animate_cube_1D i ux uy kw w = (inl (CollaboratorError e), w))
  /\ (forall x u e,
        axis_world_coords (w_self w) i = inr x ->
        ux = Some u ->
        unit_truthy u = true ->
        to x u = inl e ->
        _animate_cube_1D i ux uy kw w = (inl (CollaboratorError e), w)).
Proof.
  split.
  - intros e Hx. unfold _animate_cube_1D. run_m. by rewrite Hx.
  - intros x u e Hx -> Ht Hto. unfold _animate_cube_1D. run_m.
    rewrite Hx. unfold convert_x_if_truthy. run_m. by rewrite Ht, Hto.
Qed.

(** X18: when the cube has a unit and converting the array to
    [unit_y_axis] fails, the static 1D line strategy raises the
    conversion's exception, and so does the animated one for a truthy
    [unit_y_axis]; nothing is drawn. *)
Theorem unit_y_axis_conversion_error
    (i : Z) (ux : option Unit) (uy : Unit) (kw : kwargs) (w : world)
    (u0 : Unit) (e : ext_err) :
  cube_unit (w_self w) = Some u0 ->
  to (mk_Quantity (data (w_self w)) u0) uy = inl e ->
  (forall x', x_data_1D (w_self w) ux x' ->
     _plot_1D_cube ux (Some uy) kw w = (inl (CollaboratorError e), w))
  /\ (forall x' n,
        unit_truthy uy = true ->
        x_data_animate (w_self w) i ux x' n ->
        _animate_cube_1D i ux (Some uy) kw w = (inl (CollaboratorError e), w)).
Proof.
  intros Hu Hq. split.
  - intros x' (n & world & x & Hn & Hp & Hx & Hc).
    unfold _plot_1D_cube. run_m.
    rewrite Hn, Hp, Hx, (convert_x_converted _ _ _ _ Hc), Hu. cbn.
    by rewrite Hq.
  - intros x' n Ht (x & Hx & Hc & Hn).
    unfold _animate_cube_1D. run_m.
    rewrite Hx, (convert_x_if_truthy_converted _ _ _ _ Hc).
    unfold py_setitem. rewrite length_replicate, Hn, Ht, Hu. cbn.
    by rewrite Hq.
Qed.

End Coverage.

(** * The properties on the concrete cubes *)

#[local] Existing Instance demo_types.
#[local] Existing Instance demo_lookups.

(** C1: a rank-1 cube is not always plotted as a line: with a one-element
    list for [image_axes] the call of [plot] raises [IndexError], and with
    a non-zero scalar it raises [TypeError], both at [image_axes[1]] and
    before [_plot_1D_cube] is reached, although [_plot_1D_cube] itself
    takes this cube as far as the call of [plt.plot]. *)
Theorem plot_rank1_single_axis_raises :
  ndim (data demo_cube_1d) = 1
  /\ demo_plot demo_cube_1d None (ia_list [0%Z]) None None
     = (inl IndexError, demo_world demo_cube_1d)
  /\ demo_plot demo_cube_1d None (ia_int 1) None None
     = (inl TypeError_not_subscriptable, demo_world demo_cube_1d)
  /\ (exists x y xl yl,
        w_calls (snd (_plot_1D_cube None None tt (demo_world demo_cube_1d)))
        = [Render (Line2D x y xl yl tt)])
  /\ demo_plot demo_cube_1d None ia_None None None
     = _plot_1D_cube None None tt (demo_world demo_cube_1d).
Proof.
  split; [reflexivity |].
  split; [apply (plot_rank1_one_element_list (T:=demo_types)); reflexivity |].
  split; [apply (plot_rank1_scalar (T:=demo_types)); [reflexivity | lia] |].
  split; [| reflexivity].
  do 4 eexists. vm_compute. reflexivity.
Qed.

(** C2: on a rank-3 cube the scalar axis index 0 is taken for an omitted
    [image_axes]: [plot] runs the animated 2D image strategy on the default
    axes [-1, -2], whereas the one-element list [[0]] runs the animated 1D
    line strategy on axis 0. *)
Theorem plot_scalar_zero_not_animated_line :
  1 < ndim (data demo_cube_3d)
  /\ demo_plot demo_cube_3d None (ia_int 0) None (Some "erg")
     = _plot_3D_cube (Some [-1; -2]%Z) None (Some "erg") None tt
         (demo_world demo_cube_3d)
  /\ fst (demo_plot demo_cube_3d None (ia_int 0) None (Some "erg"))
     = inr (ImageAnimatorWCS (data demo_cube_3d) (wcs demo_cube_3d) [-1; -2]%Z
              None (Some "erg") None tt)
  /\ demo_plot demo_cube_3d None (ia_int 0) None (Some "erg")
     <> _animate_cube_1D 0 None (Some "erg") tt (demo_world demo_cube_3d)
  /\ demo_plot demo_cube_3d None (ia_list [0%Z]) None (Some "erg")
     = _animate_cube_1D 0 None (Some "erg") tt (demo_world demo_cube_3d).
Proof.
  split; [cbn; lia |].
  split; [reflexivity |].
  split; [reflexivity |].
  split; [| apply (plot_single_axis (T:=demo_types)); [cbn; lia | reflexivity]].
  intros H. apply (f_equal fst) in H. vm_compute in H. discriminate H.
Qed.

(** C3: the 5x5 cube with its two-dimensional coordinate system gets no
    image: with no drawing surface and nothing else asked for, [plot]
    raises [UnboundLocalError] for [slice_list] and makes no call, whereas
    the same data on a caller's surface, or cut out of a three-dimensional
    coordinate system, is drawn. *)
Theorem plot_rank2_two_dimensional_wcs_raises :
  ndim (data demo_cube_2d) = 2
  /\ count_not_missing (missing_axis demo_cube_2d) = 2
  /\ demo_plot demo_cube_2d None ia_None None None
     = (inl (UnboundLocalError "slice_list"), demo_world demo_cube_2d)
  /\ fst (demo_plot demo_cube_2d (Some 7) ia_None None None)
     = inr (AxesImage (SuppliedAxes 7) (data demo_cube_2d) tt)
  /\ fst (demo_plot demo_cube_2d_sliced None ia_None None None)
     = inr (AxesImage (WCSAxes 3%Z [SRole "x"; SIndex 1; SRole "y"])
              (data demo_cube_2d_sliced) tt).
Proof.
  split; [reflexivity |].
  split; [reflexivity |].
  split; [vm_compute; reflexivity |].
  split; vm_compute; reflexivity.
Qed.

(** The 5x5 image cut out of a three-dimensional coordinate system is
    drawn. *)
Lemma plot_rank2_static_image_witness :
  exists sl : list slice_item,
    length sl = 3
    /\ demo_plot demo_cube_2d_sliced None ia_None None None
       = (inr (AxesImage (WCSAxes 3%Z sl) (data demo_cube_2d_sliced) tt),
          logged (demo_world demo_cube_2d_sliced)
            [GcaWcs 3%Z sl;
             Render (AxesImage (WCSAxes 3%Z sl) (data demo_cube_2d_sliced) tt)]).
Proof.
  destruct (plot_rank2_static_image (T:=demo_types) (L:=demo_lookups)
              ia_None None None None None tt (demo_world demo_cube_2d_sliced)
              [-1; -2]%Z (-2)%Z)
    as (roles & sl & _ & Hrun & Hlen).
  - reflexivity.
  - left. repeat split; reflexivity.
  - cbn. lia.
  - reflexivity.
  - exists sl. split; [exact Hlen | exact Hrun].
Defined.


(** C5: a count of non-missing dimensions other than 2 and no drawing
    surface, yet the exception is not the dimensionality error: with a
    two-dimensional coordinate system of which one dimension is flagged
    missing the count is never compared and [slice_list] is unbound, and
    with three dimensions kept [image_axes[index]] raises [IndexError]
    before the count is compared. *)
Lemma plot_2D_cube_mismatch_other_errors :
  (count_not_missing (missing_axis demo_cube_2d_flagged) = 1
   /\ _plot_2D_cube None None tt (demo_world demo_cube_2d_flagged)
      = (inl (UnboundLocalError "slice_list"), demo_world demo_cube_2d_flagged))
  /\ (count_not_missing (missing_axis demo_cube_2d_three_kept) = 3
      /\ _plot_2D_cube None None tt (demo_world demo_cube_2d_three_kept)
         = (inl IndexError, demo_world demo_cube_2d_three_kept)).
Proof.
  repeat split.
Qed.

(** C6: for the 5x5 cube with its two-dimensional coordinate system no
    slice descriptor is built: the loop, which on these flags would give
    [['x', 'y']], is not entered, and [gca_wcs] is never called because
    reading [slice_list] raises [UnboundLocalError]; for the image cut out
    of a three-dimensional coordinate system the descriptor is built and
    handed over. *)
Theorem plot_2D_cube_descriptor_not_built :
  missing_axis demo_cube_2d = [false; false]
  /\ slice_loop ["x"; "y"] (missing_axis demo_cube_2d) [] 0
     = Some ([SRole "x"; SRole "y"], 2)
  /\ _plot_2D_cube None None tt (demo_world demo_cube_2d)
     = (inl (UnboundLocalError "slice_list"), demo_world demo_cube_2d)
  /\ w_calls (snd (_plot_2D_cube None None tt (demo_world demo_cube_2d_sliced)))
     = [GcaWcs 3%Z [SRole "x"; SIndex 1; SRole "y"];
        Render (AxesImage (WCSAxes 3%Z [SRole "x"; SIndex 1; SRole "y"])
                  (data demo_cube_2d_sliced) tt)].
Proof.
  split; [reflexivity |].
  split; [reflexivity |].
  split.
  - apply (plot_2D_cube_naxis_2 (T:=demo_types)). reflexivity.
  - vm_compute. reflexivity.
Qed.

(** One non-missing dimension out of three. *)
Lemma plot_2D_cube_dims_mismatch_witness :
  _plot_2D_cube None None tt (demo_world demo_cube_2d_one_kept)
  = (inl ValueError_dims_mismatch, demo_world demo_cube_2d_one_kept).
Proof.
  apply (plot_2D_cube_dims_mismatch (T:=demo_types)).
  - cbn. lia.
  - cbn. lia.
  - cbn. lia.
Defined.

(** Flags [[False, True, False]] give the descriptor [['x', 1, 'y']]. *)
Lemma plot_2D_cube_slice_descriptor_witness :
  exists sl : list slice_item,
    sl !! 0 = Some (SRole "x") /\ sl !! 1 = Some (SIndex 1)
    /\ sl !! 2 = Some (SRole "y") /\ length sl = 3
    /\ fst (_plot_2D_cube None None tt (demo_world demo_cube_2d_sliced))
       = inr (AxesImage (WCSAxes 3%Z sl) (data demo_cube_2d_sliced) tt).
Proof.
  destruct (plot_2D_cube_slice_descriptor (T:=demo_types)
              None tt (demo_world demo_cube_2d_sliced))
    as (sl & Hrun & Hlen & _ & _ & Hent).
  - cbn. lia.
  - reflexivity.
  - cbn. lia.
  - exists sl. rewrite !Hent, Hrun. repeat split; exact Hlen.
Defined.


(** Sweeping axis 0 of a 2x3x4 cube without a y unit. *)
Lemma animate_cube_1D_without_unit_y_axis_witness :
  _animate_cube_1D 0 None None tt (demo_world demo_cube_3d)
  = (inl (UnboundLocalError "data"), demo_world demo_cube_3d)
  /\ demo_plot demo_cube_3d None (ia_list [0%Z]) None None
     = (inl (UnboundLocalError "data"), demo_world demo_cube_3d).
Proof.
  destruct (animate_cube_1D_without_unit_y_axis (T:=demo_types) (L:=demo_lookups)
              0 None tt (demo_world demo_cube_3d)) as (_ & Ha & Hp).
  split.
  - eapply Ha. unfold x_data_animate. eexists. repeat split; reflexivity.
  - eapply Hp.
    + cbn. lia.
    + unfold x_data_animate. eexists. repeat split; reflexivity.
Defined.

(** * The further properties on the concrete cubes *)

(** Image axes [[2, 1]] on the 2x3x4 cube. *)
Lemma plot_image_animator_witness :
  demo_plot demo_cube_3d None (ia_list [2; 1]%Z) None (Some "erg")
  = (inr (ImageAnimatorWCS (data demo_cube_3d) (wcs demo_cube_3d) [2; 1]%Z
            None (Some "erg") None tt),
     logged (demo_world demo_cube_3d)
       [Render (ImageAnimatorWCS (data demo_cube_3d) (wcs demo_cube_3d) [2; 1]%Z
                  None (Some "erg") None tt)]).
Proof.
  apply (plot_image_animator (T:=demo_types) (L:=demo_lookups)
           None (ia_list [2; 1]%Z) None (Some "erg") None None tt
           (demo_world demo_cube_3d) [2; 1]%Z 1%Z).
  - cbn. lia.
  - reflexivity.
  - cbn. lia.
  - reflexivity.
  - lia.
Defined.

(** Image axes [[0, 2]] on the 2x3x4 cube. *)
Lemma plot_second_image_axis_out_of_range_witness :
  demo_plot demo_cube_3d None (ia_list [0; 2]%Z) None None
  = (inl IndexError, demo_world demo_cube_3d).
Proof.
  apply (plot_second_image_axis_out_of_range (T:=demo_types) (L:=demo_lookups)
           None (ia_list [0; 2]%Z) None None None None tt
           (demo_world demo_cube_3d) [0; 2]%Z 2%Z).
  - reflexivity.
  - cbn. lia.
  - reflexivity.
  - lia.
Defined.

Lemma plot_rank0_never_returns_witness :
  demo_plot demo_cube_0d None ia_None None None
  = (inl (UnboundLocalError "plot"), demo_world demo_cube_0d).
Proof.
  destruct (plot_rank0_never_returns (T:=demo_types) (L:=demo_lookups)
              None ia_None None None None None tt (demo_world demo_cube_0d))
    as [_ H].
  - reflexivity.
  - apply H. reflexivity.
Defined.

(** The 5x5 image with its two-dimensional coordinate system. *)
Lemma plot_rank2_two_dimensional_wcs_witness :
  demo_plot demo_cube_2d None ia_None None None
  = (inl (UnboundLocalError "slice_list"), demo_world demo_cube_2d).
Proof.
  apply (plot_rank2_two_dimensional_wcs (T:=demo_types) (L:=demo_lookups)
           ia_None None None None None tt (demo_world demo_cube_2d)
           [-1; -2]%Z (-2)%Z).
  - reflexivity.
  - left. repeat split; reflexivity.
  - reflexivity.
Defined.

(** The same cube on a surface of the caller's. *)
Lemma plot_rank2_supplied_axes_witness :
  demo_plot demo_cube_2d (Some 7) ia_None None None
  = (inr (AxesImage (SuppliedAxes 7) (data demo_cube_2d) tt),
     logged (demo_world demo_cube_2d)
       [Render (AxesImage (SuppliedAxes 7) (data demo_cube_2d) tt)]).
Proof.
  apply (plot_rank2_supplied_axes (T:=demo_types) (L:=demo_lookups)
           7 ia_None None None None None tt (demo_world demo_cube_2d)
           [-1; -2]%Z (-2)%Z).
  - reflexivity.
  - left. repeat split; reflexivity.
Defined.

(** 5x5 data with one and with three coordinate dimensions kept. *)
Lemma plot_rank2_count_mismatch_witness :
  demo_plot demo_cube_2d_one_kept None ia_None None None
  = (inl ValueError_dims_mismatch, demo_world demo_cube_2d_one_kept)
  /\ demo_plot demo_cube_2d_three_kept None ia_None None None
     = (inl IndexError, demo_world demo_cube_2d_three_kept).
Proof.
  split.
  - apply (plot_rank2_count_mismatch (T:=demo_types) (L:=demo_lookups)
             ia_None None None None None tt (demo_world demo_cube_2d_one_kept)
             [-1; -2]%Z (-2)%Z).
    + reflexivity.
    + left. repeat split; reflexivity.
    + cbn. lia.
    + cbn. lia.
  - apply (plot_rank2_count_mismatch (T:=demo_types) (L:=demo_lookups)
             ia_None None None None None tt (demo_world demo_cube_2d_three_kept)
             [-1; -2]%Z (-2)%Z).
    + reflexivity.
    + left. repeat split; reflexivity.
    + cbn. lia.
    + cbn. lia.
Defined.

(** Image axes [[0, 1]] on the sliced 5x5 image: ['y'] comes first. *)
Lemma plot_rank2_roles_witness :
  fst (demo_plot demo_cube_2d_sliced None (ia_list [0; 1]%Z) None None)
  = inr (AxesImage (WCSAxes 3%Z [SRole "y"; SIndex 1; SRole "x"])
           (data demo_cube_2d_sliced) tt).
Proof.
  eapply eq_trans.
  - apply (f_equal fst).
    apply (plot_rank2_roles (T:=demo_types) (L:=demo_lookups)
             None 0%Z 1%Z None None None None tt
             (demo_world demo_cube_2d_sliced)).
    + reflexivity.
    + lia.
  - reflexivity.
Defined.

(** The scalar axis 2 on the 2x3x4 cube. *)
Lemma plot_single_axis_animated_witness :
  demo_plot demo_cube_3d None (ia_int 2) None (Some "erg")
  = _animate_cube_1D 2 None (Some "erg") tt (demo_world demo_cube_3d).
Proof.
  apply (plot_single_axis_animated (T:=demo_types) (L:=demo_lookups)
           None (ia_int 2) 2%Z None (Some "erg") None None tt
           (demo_world demo_cube_3d)).
  - cbn. lia.
  - right. split; [reflexivity | lia].
Defined.

(** The scalar 0 and the empty list on the 2x3x4 cube. *)
Lemma plot_falsy_image_axes_default_witness :
  demo_plot demo_cube_3d None (ia_int 0) None None
  = demo_plot demo_cube_3d None (ia_list [-1; -2]%Z) None None
  /\ demo_plot demo_cube_3d None (ia_list []) None None
     = demo_plot demo_cube_3d None (ia_list [-1; -2]%Z) None None.
Proof.
  split.
  - apply (plot_falsy_image_axes_default (T:=demo_types) (L:=demo_lookups)
             None (ia_int 0) None None None None tt (demo_world demo_cube_3d)).
    reflexivity.
  - apply (plot_falsy_image_axes_default (T:=demo_types) (L:=demo_lookups)
             None (ia_list []) None None None None tt (demo_world demo_cube_3d)).
    reflexivity.
Defined.

(** A surface, axis ranges and a unit handed to the plot of the 1D cube
    change nothing. *)
Lemma plot_unused_arguments_witness :
  plot (Some 3) ia_None None None (Some tt) (Some "erg") tt (demo_world demo_cube_1d)
  = plot None ia_None None None None None tt (demo_world demo_cube_1d).
Proof.
  destruct (plot_unused_arguments (T:=demo_types) (L:=demo_lookups)
              None ia_None None None None None tt (demo_world demo_cube_1d))
    as (Hu & Hax & Har).
  eapply eq_trans; [| apply (Hu (Some "erg"))].
  eapply eq_trans.
  - apply (plot_unused_arguments (T:=demo_types) (L:=demo_lookups)
             None ia_None None None (Some tt) (Some "erg") tt
             (demo_world demo_cube_1d)).
    cbn. lia.
  - apply (plot_unused_arguments (T:=demo_types) (L:=demo_lookups)
             None ia_None None None None (Some "erg") tt
             (demo_world demo_cube_1d)).
    cbn. lia.
Defined.

(** The image returned for the sliced 5x5 cube goes with rank 2. *)
Lemma plot_handle_fits_rank_witness :
  handle_fits demo_cube_2d_sliced ia_None
    (AxesImage (WCSAxes 3%Z [SRole "x"; SIndex 1; SRole "y"])
       (data demo_cube_2d_sliced) tt).
Proof.
  apply (plot_handle_fits_rank (T:=demo_types) (L:=demo_lookups)
           None ia_None None None None None tt (demo_world demo_cube_2d_sliced)
           (snd (demo_plot demo_cube_2d_sliced None ia_None None None))).
  vm_compute. reflexivity.
Defined.

(** Ten counts converted to erg. *)
Lemma plot_1D_cube_converted_witness :
  _plot_1D_cube None (Some "erg") tt (demo_world demo_cube_1d)
  = (inl (AttributeError_Line2D "xlabel"),
     logged (demo_world demo_cube_1d)
       [Render (Line2D (mk_Quantity (demo_arange 10) "m")
                  (Converted (mk_Quantity (data demo_cube_1d) "erg"))
                  "em.wl [None]" "Data [erg]" tt)]).
Proof.
  apply (plot_1D_cube_converted (T:=demo_types) (L:=demo_lookups)
           None "erg" tt (demo_world demo_cube_1d)
           (mk_Quantity (demo_arange 10) "m") "ct"
           (mk_Quantity (data demo_cube_1d) "erg") "em.wl").
  - unfold x_data_1D. do 3 eexists. repeat split; reflexivity.
  - reflexivity.
  - reflexivity.
  - reflexivity.
Defined.

(** The cube of shape (10,): x over the pixels 0..9, y the raw array, and
    the [AttributeError] of [plt.plot]. *)
Lemma plot_rank1_line_witness :
  demo_plot demo_cube_1d None ia_None None None
  = (inl (AttributeError_Line2D "xlabel"),
     logged (demo_world demo_cube_1d)
       [Render (Line2D (mk_Quantity (demo_arange 10) "m")
                  (RawData (data demo_cube_1d)) "em.wl [None]" "Data [ct]" tt)]).
Proof.
  destruct (plot_rank1_line (T:=demo_types) (L:=demo_lookups)
              None ia_None None None None None tt (demo_world demo_cube_1d)
              eq_refl) as [_ H].
  apply (H [-1; -2]%Z (-2)%Z (mk_Quantity (demo_arange 10) "m") "em.wl").
  - left. repeat split; reflexivity.
  - unfold x_data_1D. do 3 eexists. repeat split; reflexivity.
  - reflexivity.
Defined.

(** Axis 5 of the 2x3x4 cube, with lookups that answer for any axis. *)
Lemma animate_cube_1D_axis_out_of_range_witness :
  @_animate_cube_1D demo_types demo_lookups_detached 5 None (Some "erg") tt
    (demo_world demo_cube_3d)
  = (inl IndexError, demo_world demo_cube_3d).
Proof.
  apply (animate_cube_1D_axis_out_of_range (T:=demo_types)
           (L:=demo_lookups_detached) 5 None (Some "erg") tt
           (demo_world demo_cube_3d)
           (mk_Quantity (demo_arange 1) "m") (mk_Quantity (demo_arange 1) "m")).
  - reflexivity.
  - reflexivity.
  - cbn. lia.
Defined.

(** A zero-dimensional array, a failing pixel lookup, and x data that
    cannot be converted; the cube of the last two has no unit and a y unit
    is asked for. *)
Lemma plot_1D_cube_x_data_errors_witness :
  _plot_1D_cube None None tt (demo_world demo_cube_0d)
  = (inl IndexError, demo_world demo_cube_0d)
  /\ @_plot_1D_cube demo_types demo_lookups_detached None (Some "erg") tt
       (demo_world demo_cube_1d_no_unit)
     = (inl (CollaboratorError "NoConvergence"), demo_world demo_cube_1d_no_unit)
  /\ _plot_1D_cube (Some "furlong") (Some "erg") tt (demo_world demo_cube_1d_no_unit)
     = (inl (CollaboratorError "UnitConversionError"),
        demo_world demo_cube_1d_no_unit).
Proof.
  split; [| split].
  - destruct (plot_1D_cube_x_data_errors (T:=demo_types) (L:=demo_lookups)
                None None tt (demo_world demo_cube_0d)) as (H & _ & _).
    apply H. reflexivity.
  - destruct (plot_1D_cube_x_data_errors (T:=demo_types)
                (L:=demo_lookups_detached) None (Some "erg") tt
                (demo_world demo_cube_1d_no_unit)) as (_ & H & _).
    eapply H; reflexivity.
  - destruct (plot_1D_cube_x_data_errors (T:=demo_types) (L:=demo_lookups)
                (Some "furlong") (Some "erg") tt
                (demo_world demo_cube_1d_no_unit)) as (_ & _ & H).
    eapply H; reflexivity.
Defined.

(** Axis 7 of the 2x3x4 cube, and x data that cannot be converted. *)
Lemma animate_cube_1D_x_data_errors_witness :
  _animate_cube_1D 7 None (Some "erg") tt (demo_world demo_cube_3d_no_unit)
  = (inl (CollaboratorError "IndexError in axis_world_coords"),
     demo_world demo_cube_3d_no_unit)
  /\ _animate_cube_1D 0 (Some "furlong") None tt (demo_world demo_cube_3d)
     = (inl (CollaboratorError "UnitConversionError"), demo_world demo_cube_3d).
Proof.
  split.
  - destruct (animate_cube_1D_x_data_errors (T:=demo_types) (L:=demo_lookups)
                7 None (Some "erg") tt (demo_world demo_cube_3d_no_unit))
      as (H & _).
    apply H. reflexivity.
  - destruct (animate_cube_1D_x_data_errors (T:=demo_types) (L:=demo_lookups)
                0 (Some "furlong") None tt (demo_world demo_cube_3d))
      as (_ & H).
    eapply H; reflexivity.
Defined.

(** Counts cannot be converted to furlongs. *)
Lemma unit_y_axis_conversion_error_witness :
  _plot_1D_cube None (Some "furlong") tt (demo_world demo_cube_1d)
  = (inl (CollaboratorError "UnitConversionError"), demo_world demo_cube_1d)
  /\ _animate_cube_1D (-1) None (Some "furlong") tt (demo_world demo_cube_3d)
     = (inl (CollaboratorError "UnitConversionError"), demo_world demo_cube_3d).
Proof.
  split.
  - destruct (unit_y_axis_conversion_error (T:=demo_types) (L:=demo_lookups)
                0 None "furlong" tt (demo_world demo_cube_1d) "ct"
                "UnitConversionError" eq_refl eq_refl) as [H _].
    eapply H. unfold x_data_1D. do 3 eexists. repeat split; reflexivity.
  - destruct (unit_y_axis_conversion_error (T:=demo_types) (L:=demo_lookups)
                (-1) None "furlong" tt (demo_world demo_cube_3d) "ct"
                "UnitConversionError" eq_refl eq_refl) as [_ H].
    eapply H; [reflexivity |].
    unfold x_data_animate. eexists. repeat split; reflexivity.
Defined.
